(** * classify_viirs: band-stack clustering of a VIIRS raster

    A shallow embedding of [scripts/classify_viirs.py].  The script is a
    linear sequence of calls into numpy, xarray, scikit-learn, argparse
    and logging.  The array operations it relies on (named-axis transpose,
    C-order reshape, [.T]) are modelled on flat buffers with an explicit
    shape, the way numpy stores them; the routines that the script only
    calls and never looks into (the raster decoder, the K-means solver)
    are parameters of the development. *)

From stdpp Require Import gmap strings list pretty.
From Stdlib Require Import ZArith QArith Lia.

Local Close Scope Q_scope.
Local Open Scope nat_scope.

(** ** numpy: n-dimensional arrays in C order *)

Module Numpy.

(** Number of cells of an array of the given shape. *)
Definition size (shp : list nat) : nat := foldr Nat.mul 1 shp.

(** Flat (C-order, last axis fastest) position of a multi-index. *)
Fixpoint ravel (shp idx : list nat) : nat :=
  match shp, idx with
  | _ :: shp', i :: idx' => i * size shp' + ravel shp' idx'
  | _, _ => 0
  end.

(** The multi-index found at a flat position. *)
Fixpoint unravel (shp : list nat) (k : nat) : list nat :=
  match shp with
  | [] => []
  | _ :: shp' => k / size shp' :: unravel shp' (k mod size shp')
  end.

(** [in_bounds idx shp]: one index per axis, each below its extent. *)
Definition in_bounds (idx shp : list nat) : Prop := Forall2 lt idx shp.

Global Instance in_bounds_dec idx shp : Decision (in_bounds idx shp).
Proof. unfold in_bounds. apply _. Defined.

(** Axes that [np.transpose] accepts for an array of [ndim] axes: each
    axis once. *)
Definition valid_axes (ndim : nat) (axes : list nat) : Prop :=
  length axes = ndim ∧ NoDup axes ∧ Forall (λ ax, ax < ndim) axes.

Global Instance valid_axes_dec ndim axes : Decision (valid_axes ndim axes).
Proof. unfold valid_axes. apply _. Defined.

Record ndarray (A : Type) := NdArray { shape : list nat; buffer : list A }.
Global Arguments NdArray {A} _ _.
Global Arguments shape {A} _.
Global Arguments buffer {A} _.

Section ops.
Context {A : Type}.

(** An array owns exactly one cell per position of its shape. *)
Definition wf (a : ndarray A) : Prop := length (buffer a) = size (shape a).

(** [a[i0, i1, ...]]; [None] stands for numpy's IndexError. *)
Definition item (a : ndarray A) (idx : list nat) : option A :=
  if decide (in_bounds idx (shape a)) then buffer a !! ravel (shape a) idx
  else None.

(** The index into the source array that a transposed array reads at
    [idx']: axis [axes[j]] of the source is axis [j] of the result. *)
Definition source_index (ndim : nat) (axes idx' : list nat) : list nat :=
  foldr (λ p acc, <[p.1 := p.2]> acc) (replicate ndim 0) (zip axes idx').

(** [np.transpose(a, axes)], materialised in C order.  [None] stands for
    the ValueError numpy raises when [axes] is not a permutation of the
    axes of [a]. *)
Definition transpose (axes : list nat) (a : ndarray A) : option (ndarray A) :=
  let ndim := length (shape a) in
  if decide (valid_axes ndim axes)
  then
    let shp' := (λ ax, default 0 (shape a !! ax)) <$> axes in
    buf' ← mapM (λ k, buffer a !! ravel (shape a)
                                    (source_index ndim axes (unravel shp' k)))
                (seq 0 (size shp'));
    Some (NdArray shp' buf')
  else None.

(** [a.T]: all axes reversed. *)
Definition T (a : ndarray A) : option (ndarray A) :=
  transpose (reverse (seq 0 (length (shape a)))) a.

(** [a.reshape(newshape)]; one entry may be [-1] and is then inferred
    from the number of cells.  [None] stands for numpy's ValueError:
    a negative extent other than a single [-1], a cell count that the
    requested shape cannot hold, or a [-1] next to a zero extent. *)
Definition reshape (newshape : list Z) (a : ndarray A) : option (ndarray A) :=
  let n := size (shape a) in
  let known := size (Z.to_nat <$> filter (λ d, d ≠ (-1)%Z) newshape) in
  if decide (Forall (λ d, (-1 ≤ d)%Z) newshape) then
    match length (filter (λ d, d = (-1)%Z) newshape) with
    | 0 => if decide (known = n)
           then Some (NdArray (Z.to_nat <$> newshape) (buffer a)) else None
    | 1 => if decide (known ≠ 0 ∧ n `mod` known = 0)
           then Some (NdArray ((λ d, if decide (d = (-1)%Z) then n / known
                                     else Z.to_nat d) <$> newshape)
                              (buffer a))
           else None
    | _ => None
    end
  else None.
End ops.

End Numpy.

(** ** xarray: arrays with named axes *)

Module Xarray.
Import Numpy.

Record DataArray (A : Type) := MkDataArray { dims : list string; values : ndarray A }.
Global Arguments MkDataArray {A} _ _.
Global Arguments dims {A} _.
Global Arguments values {A} _.

Section ops.
Context {A : Type}.

(** Axis number of a named dimension. *)
Definition axis_of (name : string) (ds : list string) : option nat :=
  fst <$> list_find (λ d, d = name) ds.

(** [da.sizes[name]] *)
Definition dim_size (da : DataArray A) (name : string) : option nat :=
  ax ← axis_of name (dims da); shape (values da) !! ax.

(** [da.transpose(names...)]: axes reordered by name.  [None] stands for
    the ValueError raised when [names] is not a permutation of the
    dimensions of [da]. *)
Definition transpose (names : list string) (da : DataArray A) : option (DataArray A) :=
  axes ← mapM (λ name, axis_of name (dims da)) names;
  vals ← Numpy.transpose axes (values da);
  Some (MkDataArray names vals).

(** [da.isel(...)]: the cell at the given named coordinates, one per
    dimension of [da]. *)
Definition isel (da : DataArray A) (coords : list (string * nat)) : option A :=
  idx ← mapM (λ d, (λ p, p.2.2) <$> list_find (λ c, c.1 = d) coords) (dims da);
  item (values da) idx.
End ops.

End Xarray.

(** ** Exceptions, the logging module and the command line *)

(** A raised exception: the name of its class and [str(e)]. *)
Record exn := Exn { exn_class : string; exn_msg : string }.

Global Instance exn_eq_dec : EqDecision exn.
Proof. solve_decision. Defined.

(** Whether the class of the exception derives from [Exception], which
    is what [except Exception] catches.  Exceptions are told apart by the
    name of their class: the built-in classes outside [Exception] are
    [BaseException] itself and those that derive from it directly; the
    classes that Python's other built-ins and the libraries the script
    calls (xarray, rasterio, numpy, scikit-learn, matplotlib) raise all
    derive from [Exception]. *)
Definition is_Exception (e : exn) : bool :=
  bool_decide (exn_class e ∉
    ["BaseException"; "KeyboardInterrupt"; "SystemExit"; "GeneratorExit";
     "BaseExceptionGroup"]).

(** The four levels the script can select, with Python's numbers. *)
Inductive level := DEBUG | INFO | WARNING | ERROR.

Global Instance level_eq_dec : EqDecision level.
Proof. solve_decision. Defined.

Definition levelno (l : level) : Z :=
  match l with DEBUG => 10 | INFO => 20 | WARNING => 30 | ERROR => 40 end%Z.

(** What the script itself does to the outside world, in order: the
    lines it hands to the root logger and that pass the logger's level
    (the timestamp of the format string is left out), and its calls into
    the libraries.  Records that a library logs on its own account are
    not part of the model. *)
Inductive event :=
  | Emit (lvl : level) (msg : string)
  | OpenDataset (path engine : string)
  | FitPredict (n_clusters random_state : Z)
  | Figure (width height : Z)
  | Imshow (cmap : string) (add_colorbar : bool)
  | Show.

Global Instance event_eq_dec : EqDecision event.
Proof. solve_decision. Defined.

(** The parsed command line: [args.viirs_file], [args.n_clusters], [args.v]. *)
Record Namespace := MkNamespace { viirs_file : string; n_clusters : Z; v : Z }.

(** One command-line argument after lexing: a bare word; [--n_clusters N]
    with [N] already converted by [int]; a group [-v], [-vv], ... of
    [times] letters; [-h] or [--help], which argparse adds on its own;
    an option the parser does not know; an argument the parser refuses
    on the spot, such as [--n_clusters] without an integer after it. *)
Inductive arg :=
  | Word (s : string)
  | OptNClusters (n : Z)
  | FlagV (times : nat)
  | Help
  | Unknown (s : string)
  | Malformed (s : string).

(** Pure code that may raise. *)
Global Instance exn_ret : MRet (sum exn) := λ A x, inr x.
Global Instance exn_bind : MBind (sum exn) := λ A B k r,
  match r with inl e => inl e | inr x => k x end.

Definition or_else {A} (e : exn) (o : option A) : exn + A :=
  match o with Some x => inr x | None => inl e end.

Definition KeyError (key : Z) : exn := Exn "KeyError" (pretty key).
Definition IndexError : exn := Exn "IndexError" "tuple index out of range".
Definition ValueError (msg : string) : exn := Exn "ValueError" msg.
(** argparse reports a usage error and exits with status 2. *)
Definition SystemExit : exn := Exn "SystemExit" "2".
(** The help option prints the usage and exits with status 0. *)
Definition SystemExit_help : exn := Exn "SystemExit" "0".

(** [parser.parse_args()] for the three arguments the script declares:
    the positional [viirs_file], [--n_clusters] (int, default 5) and the
    counting flag [-v] (default 0).  The arguments are taken from left
    to right; the help option and a malformed argument end the parse
    where they stand, while a second bare word and an unknown option
    are set aside ([extras]) and reported once the end is reached, after
    the check that the positional argument was given. *)
Fixpoint parse_loop (argv : list arg) (file : option string) (extras : bool)
    (n_clusters v : Z) : exn + Namespace :=
  match argv with
  | [] => match file with
          | Some f => if extras then inl SystemExit
                      else inr (MkNamespace f n_clusters v)
          | None => inl SystemExit
          end
  | Word s :: rest => match file with
                      | None => parse_loop rest (Some s) extras n_clusters v
                      | Some _ => parse_loop rest file true n_clusters v
                      end
  | OptNClusters n :: rest => parse_loop rest file extras n v
  | FlagV times :: rest => parse_loop rest file extras n_clusters (v + Z.of_nat times)%Z
  | Help :: _ => inl SystemExit_help
  | Unknown _ :: rest => parse_loop rest file true n_clusters v
  | Malformed _ :: _ => inl SystemExit
  end.

Definition parse_args (argv : list arg) : exn + Namespace :=
  parse_loop argv None false 5%Z 0%Z.

Module Script.
Import Numpy Xarray.

Section script.
(** Cell values (float64 in the rasters the script is run on). *)
Context {V : Type}.
(** The state of a numpy random generator, and [RandomState(seed)]. *)
Context {RandomState : Type} (RandomState_seed : Z → RandomState).

(** The dataset [xr.open_dataset] returns: the raster under the name
    [band_data], and whatever the script adds as [clusters]. *)
Record Dataset := MkDataset {
  band_data : DataArray V;
  clusters : option (DataArray Z)
}.

(** [xr.open_dataset(path, engine='rasterio')] on the file system of
    the run. *)
Context (xr_open_dataset : string → exn + Dataset).
(** The K-means solver of scikit-learn ([KMeans.fit_predict]): from a
    generator state, a cluster count and the samples to the labels (or
    an exception) and the generator state it leaves. *)
Context (k_means : RandomState → Z → ndarray V → (exn + ndarray Z) * RandomState).

(** Process state: the root logger, numpy's global generator, and the
    events so far. *)
Record world := MkWorld {
  root_configured : bool;
  root_level : level;
  np_random : RandomState;
  trace : list event
}.

(** A computation that may raise and may act on the world. *)
Definition M (A : Type) : Type := world → (exn + A) * world.

Definition ret {A} (x : A) : M A := λ w, (inr x, w).
Definition raise {A} (e : exn) : M A := λ w, (inl e, w).
Definition bind {A B} (m : M A) (k : A → M B) : M B := λ w,
  match m w with
  | (inl e, w') => (inl e, w')
  | (inr x, w') => k x w'
  end.
Definition lift {A} (r : exn + A) : M A := λ w, (r, w).
Definition or_raise {A} (e : exn) (o : option A) : M A :=
  match o with Some x => ret x | None => raise e end.
Definition record (ev : event) : M unit := λ w,
  (inr (), MkWorld (root_configured w) (root_level w) (np_random w) (trace w ++ [ev])).

Global Instance M_ret : MRet M := @ret.
Global Instance M_bind : MBind M := λ A B k m, bind m k.

(** [try: body / except Exception as e: handler(e); raise].  An
    exception that is not an [Exception] (Ctrl-C, an exit) is not caught:
    it passes through and the handler does not run. *)
Definition try_except_reraise {A} (body : M A) (handler : exn → M unit) : M A := λ w,
  match body w with
  | (inl e, w') =>
      if is_Exception e then
        match handler e w' with
        | (inl e', w'') => (inl e', w'')
        | (inr _, w'') => (inl e, w'')
        end
      else (inl e, w')
  | (inr x, w') => (inr x, w')
  end.

(** [logging.basicConfig(level=...)]: configures the root logger unless
    it already has a handler. *)
Definition logging_basicConfig (lvl : level) : M unit := λ w,
  if root_configured w then (inr (), w)
  else (inr (), MkWorld true lvl (np_random w) (trace w)).

(** [logging.log(lvl, msg)] on the root logger: a handler is installed
    if there is none, and the line is written when [lvl] reaches the
    root level. *)
Definition logging_log (lvl : level) (msg : string) : M unit := λ w,
  (inr (), MkWorld true (root_level w) (np_random w)
             (if decide (levelno (root_level w) ≤ levelno lvl)%Z
              then trace w ++ [Emit lvl msg] else trace w)).

Definition logging_info := logging_log INFO.
Definition logging_error := logging_log ERROR.

(** The dictionary of [setup_logging]. *)
Definition level_table : gmap Z level :=
  {[ 0%Z := ERROR; 1%Z := WARNING; 2%Z := INFO; 3%Z := DEBUG ]}.

Definition setup_logging (log_level : Z) : M unit :=
  lvl ← or_raise (KeyError log_level) (level_table !! log_level);
  logging_basicConfig lvl.

Definition load_data (file_path : string) : M Dataset :=
  try_except_reraise
    (record (OpenDataset file_path "rasterio");;
     data ← lift (xr_open_dataset file_path);
     logging_info ("Data loaded successfully from " +:+ file_path);;
     ret data)
    (λ e, logging_error ("Error loading data from " +:+ file_path +:+ ": " +:+ exn_msg e)).

(** [KMeans(n_clusters=..., random_state=...).fit_predict(X)].  With an
    integer [random_state] the solver draws from a generator seeded
    afresh; with [None] it draws from numpy's global generator. *)
Definition KMeans_fit_predict (n_clusters : Z) (random_state : option Z)
    (X : ndarray V) : M (ndarray Z) := λ w,
  match random_state with
  | Some seed => (fst (k_means (RandomState_seed seed) n_clusters X), w)
  | None =>
      let r := k_means (np_random w) n_clusters X in
      (fst r, MkWorld (root_configured w) (root_level w) (snd r) (trace w))
  end.

(** [n_clusters] is [None] when the caller leaves it out (default 5). *)
Definition classify_data (flat_data : ndarray V) (n_clusters : option Z) : M (ndarray Z) :=
  let n_clusters := default 5%Z n_clusters in
  try_except_reraise
    (record (FitPredict n_clusters 9);;
     labels ← KMeans_fit_predict n_clusters (Some 9%Z) flat_data;
     logging_info "Data classified successfully.";;
     ret labels)
    (λ e, logging_error ("Error during classification: " +:+ exn_msg e)).

(** Band-Stack Reshaper, the lines of [main] that turn the raster into
    the sample matrix:
<<
    n_bands = xds.band_data.shape[0]
    n_x = xds.band_data.shape[1]
    n_y = xds.band_data.shape[2]
    data = xds.band_data.transpose('y', 'x', 'band').values.reshape(-1, n_bands)
>> *)
Definition band_stack (bd : DataArray V) : exn + (nat * nat * nat * ndarray V) :=
  n_bands ← or_else IndexError (shape (values bd) !! 0);
  n_x ← or_else IndexError (shape (values bd) !! 1);
  n_y ← or_else IndexError (shape (values bd) !! 2);
  t ← or_else (ValueError "transpose") (Xarray.transpose ["y"; "x"; "band"] bd);
  data ← or_else (ValueError "reshape")
                 (Numpy.reshape [(-1)%Z; Z.of_nat n_bands] (values t));
  inr (n_bands, n_x, n_y, data).

(** Result Reshaper: [results.reshape(n_x, n_y).T] *)
Definition result_reshape {L} (results : ndarray L) (n_x n_y : nat) : exn + ndarray L :=
  grid ← or_else (ValueError "reshape")
                 (Numpy.reshape [Z.of_nat n_x; Z.of_nat n_y] results);
  or_else (ValueError "transpose") (Numpy.T grid).

(** [xds['clusters'] = xr.DataArray(results, dims=('x', 'y'))]: the new
    variable needs one name per axis, and every dimension it shares
    with the dataset must have the length the dataset has for it. *)
Definition same_size (bd : DataArray V) (da : DataArray Z) (d : string) : bool :=
  match dim_size bd d with
  | Some n => bool_decide (dim_size da d = Some n)
  | None => true
  end.

Definition add_clusters (xds : Dataset) (results : ndarray Z) : exn + Dataset :=
  let da := MkDataArray ["x"; "y"] results in
  if decide (length (shape results) = 2) then
    if forallb (same_size (band_data xds) da) (dims da)
    then inr (MkDataset (band_data xds) (Some da))
    else inl (ValueError "conflicting sizes")
  else inl (ValueError "dims").

Definition main (argv : list arg) : M unit :=
  args ← lift (parse_args argv);
  setup_logging (v args);;
  logging_info "Script started.";;
  xds ← load_data (viirs_file args);
  logging_info "Extract and reshape data along singleton dimension.";;
  '(n_bands, n_x, n_y, data) ← lift (band_stack (band_data xds));
  logging_info "Classifying data using KMeans.";;
  results ← classify_data data (Some (n_clusters args));
  logging_info "Reshaping results to match original dimensions.";;
  results ← lift (result_reshape results n_x n_y);
  xds ← lift (add_clusters xds results);
  logging_info "Plotting results.";;
  record (Figure 10 10);;
  record (Imshow "tab10" false);;
  record Show;;
  logging_info "Script finished.".
End script.
End Script.

(** ** Vocabulary of the specification *)

Module Spec.
Import Numpy Xarray Script.

(** The two orders in which a raster can store its axes. *)
Definition band_x_y : list string := ["band"; "x"; "y"].
Definition band_y_x : list string := ["band"; "y"; "x"].

(** Row of the Pixel Matrix that holds the pixel at [(ix, iy)] when the
    [(y, x)] plane is flattened in row-major order, and its inverse. *)
Definition row_of (len_x ix iy : nat) : nat := iy * len_x + ix.
Definition cell_of (len_x row : nat) : nat * nat := (row `mod` len_x, row / len_x).

(** Number of [v] letters on the command line. *)
Definition count_v (argv : list arg) : nat :=
  foldr (λ a n, match a with FlagV times => times + n | _ => n end) 0 argv.

Definition has_n_clusters (argv : list arg) : bool :=
  existsb (λ a, match a with OptNClusters _ => true | _ => false end) argv.

Definition raises {A} (r : exn + A) (class : string) : Prop :=
  match r with inl e => exn_class e = class | inr _ => False end.

Section vocabulary.
Context {V : Type}.

(** A 3-D array with one cell per position whose axes are named [ds],
    in that order, and have the lengths [n0; n1; n2]. *)
Definition stored_as (ds : list string) (n0 n1 n2 : nat) (bd : DataArray V) : Prop :=
  dims bd = ds ∧ shape (values bd) = [n0; n1; n2] ∧ wf (values bd).

(** A Raster of [B] bands over [X] positions along [x] and [Y] along
    [y], the band axis first and the two spatial axes in either order. *)
Definition raster (B X Y : nat) (bd : DataArray V) : Prop :=
  stored_as band_x_y B X Y bd ∨ stored_as band_y_x B Y X bd.

(** The value of band [b] at grid position [(ix, iy)]. *)
Definition cell (bd : DataArray V) (b ix iy : nat) : option V :=
  isel bd [("band", b); ("x", ix); ("y", iy)].

(** [m[:, b]]: one band of the Pixel Matrix as a flat sequence. *)
Definition column (m : ndarray V) (b : nat) : option (ndarray V) :=
  let rows := default 0 (shape m !! 0) in
  NdArray [rows] <$> mapM (λ r, item m [r; b]) (seq 0 rows).

(** Round-trip law: each band of the Pixel Matrix, sent through the
    Result Reshaper, shows at [(ix, iy)] the raster's value at
    [(ix, iy)]. *)
Definition round_trip (bd : DataArray V) : Prop :=
  ∃ n_bands n_x n_y data len_x len_y,
    band_stack bd = inr (n_bands, n_x, n_y, data) ∧
    dim_size bd "x" = Some len_x ∧ dim_size bd "y" = Some len_y ∧
    ∀ b, b < n_bands → ∃ col grid,
      column data b = Some col ∧
      result_reshape col n_x n_y = inr grid ∧
      ∀ ix iy, ix < len_x → iy < len_y →
        ∃ val, cell bd b ix iy = Some val ∧ item grid [ix; iy] = Some val.
End vocabulary.

End Spec.

(** ** Concrete rasters and library stand-ins used in examples *)

Module Examples.
Import Numpy Xarray Script Spec.

(** One band over a grid with two [x] and three [y] positions; the cell
    at [(ix, iy)] holds [10 * ix + iy]. *)
Definition raster_bxy_2x3 : DataArray Z :=
  MkDataArray band_x_y (NdArray [1; 2; 3] [0; 1; 2; 10; 11; 12]%Z).

(** The same grid stored the way the rasterio engine delivers it: three
    rows ([y]) of two columns ([x]). *)
Definition raster_byx_3x2 : DataArray Z :=
  MkDataArray band_y_x (NdArray [1; 3; 2] [0; 10; 1; 11; 2; 12]%Z).

(** A two-band square raster in [(band, x, y)] order. *)
Definition raster_bxy_2x2 : DataArray Z :=
  MkDataArray band_x_y (NdArray [2; 2; 2] [0; 1; 10; 11; 100; 101; 110; 111]%Z).

(** A file system with a single raster file. *)
Definition one_file_open (path : string) : exn + @Dataset Z :=
  if decide (path = "viirs.tif") then inr (MkDataset raster_byx_3x2 None)
  else inl (Exn "RasterioIOError" (path +:+ ": No such file or directory")).

(** [X.shape[0]]: the number of rows of a sample matrix. *)
Definition n_samples {A} (X : ndarray A) : nat := default 0 (shape X !! 0).

(** A solver that validates its arguments the way scikit-learn does (a
    cluster count below 1 is an invalid parameter, one above the number
    of rows a ValueError, each with scikit-learn's message) and otherwise
    puts every sample in cluster 0: enough to exercise the error path of
    [classify_data]. *)
Definition checking_k_means (g : nat) (n_clusters : Z) (X : ndarray Z)
    : (exn + ndarray Z) * nat :=
  if decide (n_clusters ≤ 0)%Z then
    (inl (Exn "InvalidParameterError"
            ("The 'n_clusters' parameter of KMeans must be an int in the range [1, inf). Got "
             +:+ pretty n_clusters +:+ " instead.")), g)
  else if decide (Z.of_nat (n_samples X) < n_clusters)%Z then
    (inl (ValueError ("n_samples=" +:+ pretty (n_samples X) +:+ " should be >= n_clusters="
                      +:+ pretty n_clusters +:+ ".")), g)
  else (inr (NdArray [n_samples X] (replicate (n_samples X) 0%Z)), S g).

(** A solver whose labels show the generator state it was started in. *)
Definition echo_k_means (g : nat) (n_clusters : Z) (X : ndarray Z)
    : (exn + ndarray Z) * nat :=
  (inr (NdArray [1] [Z.of_nat g]), S g).

Definition fresh_world : @world nat := MkWorld false WARNING 0 [].
End Examples.

(** ** Reading a run off its events *)

Module Observe.
Import Numpy Xarray Script.

Definition is_call (ev : event) : bool :=
  match ev with Emit _ _ => false | _ => true end.

(** The calls into the libraries among some events, in order. *)
Definition calls (evs : list event) : list event := filter (λ ev, is_call ev) evs.

(** The messages of the ERROR lines among some events, in order. *)
Definition errors (evs : list event) : list string :=
  omap (λ ev, match ev with Emit ERROR msg => Some msg | _ => None end) evs.

(** The five library calls of a complete run of [main]. *)
Definition stages (ns : Namespace) : list event :=
  [OpenDataset (viirs_file ns) "rasterio"; FitPredict (n_clusters ns) 9;
   Figure 10 10; Imshow "tab10" false; Show].

(** The bare words of a command line, and the value of the last
    [--n_clusters] on it (5 when there is none). *)
Definition words (argv : list arg) : list string :=
  omap (λ a, match a with Word s => Some s | _ => None end) argv.

Definition last_n_clusters (argv : list arg) : Z :=
  foldl (λ n a, match a with OptNClusters m => m | _ => n end) 5%Z argv.

(** The exit that the first help option or malformed argument of a
    command line brings about, if there is one. *)
Fixpoint first_stop (argv : list arg) : option exn :=
  match argv with
  | [] => None
  | Help :: _ => Some SystemExit_help
  | Malformed _ :: _ => Some SystemExit
  | _ :: rest => first_stop rest
  end.

Definition has_unknown (argv : list arg) : bool :=
  existsb (λ a, match a with Unknown _ => true | _ => false end) argv.

Section observe.
Context {RandomState : Type}.

(** [w'] is [w] after some more events, whose library calls are [cs] and
    whose ERROR lines are [errs]; numpy's global generator is as it was. *)
Definition extends (w w' : @world RandomState) (cs : list event) (errs : list string) : Prop :=
  ∃ new, trace w' = trace w ++ new ∧ calls new = cs ∧ errors new = errs ∧
         np_random w' = np_random w.

(** Started in [w], the computation [m] ends with the result [r], having
    made the calls [cs] and written the ERROR lines [errs]. *)
Definition yields {A} (m : @M RandomState A) (w : @world RandomState)
    (r : exn + A) (cs : list event) (errs : list string) : Prop :=
  ∃ w', m w = (r, w') ∧ extends w w' cs errs.
End observe.
End Observe.

(** ** Further stand-ins used in examples *)

Module MoreExamples.
Import Numpy Xarray Script Spec Examples.

(** A file system whose one file holds the raster stored as (band, x, y). *)
Definition band_x_y_open (path : string) : exn + @Dataset Z :=
  if decide (path = "viirs.tif") then inr (MkDataset raster_bxy_2x3 None)
  else inl (Exn "RasterioIOError" (path +:+ ": No such file or directory")).

(** A file system whose one file decodes to a single band without a band
    axis. *)
Definition flat_open (path : string) : exn + @Dataset Z :=
  inr (MkDataset (MkDataArray ["y"; "x"] (NdArray [3; 2] [0; 10; 1; 11; 2; 12]%Z)) None).

(** The Pixel Matrices of the two example rasters. *)
Definition pixels_byx_3x2 : ndarray Z := NdArray [6; 1] [0; 10; 1; 11; 2; 12]%Z.
Definition pixels_bxy_2x3 : ndarray Z := NdArray [6; 1] [0; 10; 1; 11; 2; 12]%Z.
End MoreExamples.

(** ** The Pixel Clusterer as the specification describes it *)

Module Clusterer.
Import Numpy Examples.

Global Instance Q_eq_dec : EqDecision Q.
Proof. solve_decision. Defined.

(** The rows of a sample matrix, top to bottom. *)
Definition rows {A} (X : ndarray A) : list (list A) :=
  let width := default 0 (shape X !! 1) in
  (λ r, take width (drop (r * width) (buffer X))) <$> seq 0 (n_samples X).

(** The rows of a sample matrix without repetitions. *)
Definition distinct_rows {A} `{EqDecision A} (X : ndarray A) : list (list A) :=
  remove_dups (rows X).

(** Modelled from the spec: the failure kind that sections 4.3 and 7 name
    for the clusterer; the script defines no such class. *)
Definition ClassificationError (msg : string) : exn := Exn "ClassificationError" msg.

Section solver.
Context {RandomState : Type}.
(** A pseudo-random number below a bound, and the generator state it
    leaves. *)
Context (randint : RandomState → nat → nat * RandomState).
(** The maximum iteration count. *)
Context (max_iter : nat).

(** Modelled from the spec: the squared Euclidean distance in band space
    that the nearest-centroid assignment of section 4.3 compares; the
    clustering routine is scikit-learn's and not part of the repository.
    Reflectances are taken as rationals. *)
Definition sqdist (r c : list Q) : Q :=
  foldr Qplus 0%Q (zip_with (λ a b, (a - b) * (a - b))%Q r c).

(** Modelled from the spec: the position of the least of some distances,
    the first one among equals (the specification leaves the tie-break to
    the routine). *)
Fixpoint argmin_from (i best : nat) (least : Q) (ds : list Q) : nat :=
  match ds with
  | [] => best
  | d :: ds' => if Qlt_le_dec d least then argmin_from (S i) i d ds'
                else argmin_from (S i) best least ds'
  end.

(** Modelled from the spec: assignment by nearest centroid (section 4.3):
    the label of a row is the number of the centroid closest to it. *)
Definition nearest (centroids : list (list Q)) (r : list Q) : nat :=
  match sqdist r <$> centroids with
  | [] => 0
  | d :: ds => argmin_from 1 0 d ds
  end.

(** Modelled from the spec: the mean of the rows of a group, the
    centroid as it was when the group is empty. *)
Definition group_mean (members : list (list Q)) (old : list Q) : list Q :=
  match members with
  | [] => old
  | r :: rest =>
      (λ total, total / inject_Z (Z.of_nat (length members)))%Q
        <$> foldl (zip_with Qplus) r rest
  end.

(** Modelled from the spec: the recomputation of the centroids as group
    means (section 4.3 and the glossary). *)
Definition recompute (centroids : list (list Q)) (rws : list (list Q)) : list (list Q) :=
  imap (λ j c, group_mean (filter (λ r, nearest centroids r = j) rws) c) centroids.

(** Modelled from the spec: iterative centroid recomputation until the
    assignments stabilize or the maximum iteration count is reached
    (section 4.3). *)
Fixpoint refine (iterations : nat) (centroids : list (list Q)) (rws : list (list Q))
    : list (list Q) :=
  match iterations with
  | 0 => centroids
  | S iterations' =>
      let centroids' := recompute centroids rws in
      if decide (nearest centroids' <$> rws = nearest centroids <$> rws) then centroids'
      else refine iterations' centroids' rws
  end.

(** Modelled from the spec: pseudo-random initialization of [k]
    centroids, governed by the generator (section 4.3).  The
    specification does not say where the initial centroids come from;
    here they are drawn, without repetition, among the distinct rows,
    which is why a cluster count above their number cannot be served. *)
Fixpoint initial (k : nat) (pool : list (list Q)) (g : RandomState)
    : list (list Q) * RandomState :=
  match k with
  | 0 => ([], g)
  | S k' =>
      let (draw, g') := randint g (length pool) in
      let i := draw `mod` length pool in
      match pool !! i with
      | Some c => let (cs, g'') := initial k' (delete i pool) g' in (c :: cs, g'')
      | None => ([], g')
      end
  end.

(** Modelled from the spec: the Pixel Clusterer of section 4.3, in place
    of scikit-learn's [KMeans.fit_predict], which the repository only
    calls.  Given the Pixel Matrix and a cluster count K it fails with
    ClassificationError if K exceeds the number of distinct rows or
    K <= 0, and otherwise returns one integer label (0..K-1) per row:
    pseudo-random initial centroids, refinement, and the assignment of
    every row to its nearest centroid. *)
Definition pixel_clusterer (g : RandomState) (K : Z) (X : ndarray Q)
    : (exn + ndarray Z) * RandomState :=
  if decide (K ≤ 0 ∨ Z.of_nat (length (distinct_rows X)) < K)%Z then
    (inl (ClassificationError "invalid cluster count"), g)
  else
    let (centroids0, g') := initial (Z.to_nat K) (distinct_rows X) g in
    let centroids := refine max_iter centroids0 (rows X) in
    (inr (NdArray [n_samples X] (Z.of_nat <$> (nearest centroids <$> rows X))), g').
End solver.

(** Four pixels of two bands, two of them equal, in two well separated
    groups; and a generator that counts. *)
Definition four_pixels : ndarray Q :=
  NdArray [4; 2] [0; 1; 100; 101; 0; 1; 99; 100]%Q.

Definition counting_randint (g bound : nat) : nat * nat := (g, S g).
End Clusterer.

(** * Facts about the array model *)

Module NumpyFacts.
Import Numpy.

Lemma size_cons n shp : size (n :: shp) = n * size shp.
Proof. reflexivity. Qed.

Lemma ravel_lt shp : ∀ idx, in_bounds idx shp → ravel shp idx < size shp.
Proof.
  induction shp as [|n shp IH]; intros idx Hb; inversion Hb; subst; simpl.
  - lia.
  - match goal with H : Forall2 _ _ shp |- _ => apply IH in H end. nia.
Qed.

Lemma unravel_ravel shp : ∀ idx, in_bounds idx shp → unravel shp (ravel shp idx) = idx.
Proof.
  induction shp as [|n shp IH]; intros idx Hb; inversion Hb as [|i ? idx' ? Hi Hrest]; subst.
  - reflexivity.
  - pose proof (ravel_lt _ _ Hrest) as Hlt. simpl.
    rewrite Nat.div_add_l by lia. rewrite (Nat.div_small _ _ Hlt), Nat.add_0_r.
    rewrite Nat.add_comm, Nat.Div0.mod_add, (Nat.mod_small _ _ Hlt).
    by rewrite (IH _ Hrest).
Qed.

Lemma unravel_in_bounds shp : ∀ k, k < size shp → in_bounds (unravel shp k) shp.
Proof.
  induction shp as [|n shp IH]; intros k Hk; simpl in *.
  - constructor.
  - assert (size shp ≠ 0) by (intros E; rewrite E in Hk; lia).
    constructor.
    + apply Nat.Div0.div_lt_upper_bound. lia.
    + apply IH. by apply Nat.mod_upper_bound.
Qed.

Lemma ravel_unravel shp : ∀ k, k < size shp → ravel shp (unravel shp k) = k.
Proof.
  induction shp as [|n shp IH]; intros k Hk; simpl in *.
  - lia.
  - assert (size shp ≠ 0) by (intros E; rewrite E in Hk; lia).
    rewrite IH by (by apply Nat.mod_upper_bound).
    pose proof (Nat.div_mod_eq k (size shp)). lia.
Qed.

Lemma in_bounds_length idx shp : in_bounds idx shp → length idx = length shp.
Proof. apply Forall2_length. Qed.


Section transpose.
Context {A : Type}.
Implicit Types a t : ndarray A.

Lemma source_index_length ndim axes idx' :
  length (source_index ndim axes idx') = ndim.
Proof.
  unfold source_index. induction (zip axes idx') as [|p l IH]; simpl.
  - apply length_replicate.
  - by rewrite length_insert.
Qed.

Lemma source_index_lookup ndim axes : ∀ idx' j ax i,
  NoDup axes → axes !! j = Some ax → idx' !! j = Some i → ax < ndim →
  source_index ndim axes idx' !! ax = Some i.
Proof.
  induction axes as [|a axes IH]; intros idx' j ax i Hnd Hax Hi Hlt; [done|].
  destruct idx' as [|i0 idx']; [done|].
  apply NoDup_cons in Hnd as [Hnotin Hnd].
  change (source_index ndim (a :: axes) (i0 :: idx'))
    with (<[a:=i0]> (source_index ndim axes idx')).
  destruct j as [|j]; simpl in *; simplify_eq.
  - apply list_lookup_insert_eq. by rewrite source_index_length.
  - rewrite list_lookup_insert_ne; [by eapply IH|].
    intros ->. apply Hnotin. by eapply list_elem_of_lookup_2.
Qed.

Lemma valid_axes_onto ndim axes ax :
  valid_axes ndim axes → ax < ndim → ∃ j, axes !! j = Some ax.
Proof.
  intros (Hlen & Hnd & Hlt) Hax.
  assert (axes ≡ₚ seq 0 ndim) as Hp.
  { apply submseteq_length_Permutation.
    - apply NoDup_submseteq; [done|]. intros x Hx. apply elem_of_seq.
      rewrite Forall_forall in Hlt. specialize (Hlt x Hx). lia.
    - rewrite length_seq. lia. }
  apply list_elem_of_lookup_1. rewrite Hp. apply elem_of_seq. lia.
Qed.

Lemma source_index_in_bounds shp axes idx' :
  valid_axes (length shp) axes →
  in_bounds idx' ((λ ax, default 0 (shp !! ax)) <$> axes) →
  in_bounds (source_index (length shp) axes idx') shp.
Proof.
  intros Hv Hb. apply Forall2_same_length_lookup. split.
  { apply source_index_length. }
  intros ax i n Hi Hn.
  assert (ax < length shp) as Hax by (by eapply lookup_lt_Some).
  destruct (valid_axes_onto _ _ _ Hv Hax) as [j Hj].
  destruct Hv as (Hlen & Hnd & _).
  destruct (Forall2_lookup_r _ _ _ j n Hb) as (i' & Hi' & Hlt).
  { rewrite list_lookup_fmap, Hj. simpl. by rewrite Hn. }
  rewrite (source_index_lookup _ _ _ _ _ _ Hnd Hj Hi' Hax) in Hi. by simplify_eq.
Qed.

Lemma transpose_Some axes a :
  wf a → valid_axes (length (shape a)) axes → is_Some (transpose axes a).
Proof.
  intros Hwf Hv. unfold transpose. rewrite decide_True by exact Hv.
  set (shp' := (λ ax, default 0 (shape a !! ax)) <$> axes).
  assert (is_Some (mapM (λ k, buffer a !! ravel (shape a)
            (source_index (length (shape a)) axes (unravel shp' k)))
            (seq 0 (size shp')))) as [buf' ->]; [|by eexists].
  apply mapM_is_Some, Forall_forall. intros k Hk.
  apply elem_of_seq in Hk. simpl. apply lookup_lt_is_Some. rewrite Hwf.
  apply ravel_lt, source_index_in_bounds; [done|].
  apply unravel_in_bounds. subst shp'. simpl in *. lia.
Qed.

Lemma transpose_shape axes a t :
  transpose axes a = Some t →
  shape t = (λ ax, default 0 (shape a !! ax)) <$> axes.
Proof.
  unfold transpose. case_decide; [|done]. intros Ht.
  apply bind_Some in Ht as (buf' & _ & Ht). by simplify_eq.
Qed.

Lemma transpose_wf axes a t : transpose axes a = Some t → wf t.
Proof.
  unfold transpose. case_decide; [|done]. intros Ht.
  apply bind_Some in Ht as (buf' & Hm & Ht). simplify_eq.
  apply length_mapM in Hm. unfold wf. simpl. by rewrite <- Hm, length_seq.
Qed.

(** Cell [idx'] of the transposed array is the cell of the source whose
    index along axis [axes[j]] is [idx'[j]]. *)
Lemma transpose_item axes a t idx' :
  transpose axes a = Some t → in_bounds idx' (shape t) →
  item t idx' = item a (source_index (length (shape a)) axes idx').
Proof.
  intros Ht Hb. pose proof (transpose_shape _ _ _ Ht) as Hshp.
  unfold item. rewrite decide_True by done.
  revert Ht. unfold transpose. case_decide as Hv; [|done]. intros Ht.
  apply bind_Some in Ht as (buf' & Hm & Ht). simplify_eq. simpl in *.
  rewrite decide_True by (by apply source_index_in_bounds).
  apply mapM_Some_1 in Hm.
  pose proof (ravel_lt _ _ Hb) as Hlt.
  destruct (Forall2_lookup_l _ _ _ _ _ Hm (lookup_seq_lt 0 _ _ Hlt)) as (x & Hx & Hsrc).
  simpl in Hsrc. rewrite unravel_ravel in Hsrc by done. by rewrite Hx, Hsrc.
Qed.

Lemma valid_axes_Permutation ndim axes : valid_axes ndim axes → axes ≡ₚ seq 0 ndim.
Proof.
  intros (Hlen & Hnd & Hlt). apply submseteq_length_Permutation.
  - apply NoDup_submseteq; [done|]. intros x Hx. apply elem_of_seq.
    rewrite Forall_forall in Hlt. specialize (Hlt x Hx). lia.
  - rewrite length_seq. lia.
Qed.

Lemma size_Permutation shp1 shp2 : shp1 ≡ₚ shp2 → size shp1 = size shp2.
Proof. induction 1; simpl in *; lia. Qed.

Lemma gather_all_axes (shp : list nat) :
  (λ ax, default 0 (shp !! ax)) <$> seq 0 (length shp) = shp.
Proof.
  apply list_eq. intros i. rewrite list_lookup_fmap.
  destruct (decide (i < length shp)) as [Hi|Hi].
  - rewrite lookup_seq_lt by done. simpl.
    destruct (lookup_lt_is_Some_2 shp i Hi) as [n Hn]. by rewrite Hn.
  - rewrite lookup_seq_ge, lookup_ge_None_2 by lia. done.
Qed.

Lemma transpose_size axes a t :
  transpose axes a = Some t → size (shape t) = size (shape a).
Proof.
  intros Ht. rewrite (transpose_shape _ _ _ Ht).
  revert Ht. unfold transpose. case_decide as Hv; [|done]. intros _.
  transitivity (size ((λ ax, default 0 (shape a !! ax)) <$> seq 0 (length (shape a))));
    [|by rewrite gather_all_axes].
  apply size_Permutation, fmap_Permutation, valid_axes_Permutation, Hv.
Qed.

Lemma source_index_inj ndim axes idx1 idx2 :
  valid_axes ndim axes → length idx1 = ndim → length idx2 = ndim →
  source_index ndim axes idx1 = source_index ndim axes idx2 → idx1 = idx2.
Proof.
  intros (Hlen & Hnd & Hlt) H1 H2 Heq. apply list_eq. intros j.
  destruct (decide (j < ndim)) as [Hj|Hj].
  - destruct (lookup_lt_is_Some_2 axes j) as [ax Hax]; [lia|].
    destruct (lookup_lt_is_Some_2 idx1 j) as [i1 Hi1]; [lia|].
    destruct (lookup_lt_is_Some_2 idx2 j) as [i2 Hi2]; [lia|].
    assert (ax < ndim) as Haxlt.
    { rewrite Forall_forall in Hlt. apply Hlt. by eapply list_elem_of_lookup_2. }
    pose proof (source_index_lookup ndim _ _ _ _ _ Hnd Hax Hi1 Haxlt) as E1.
    pose proof (source_index_lookup ndim _ _ _ _ _ Hnd Hax Hi2 Haxlt) as E2.
    rewrite Heq in E1. rewrite Hi1, Hi2. congruence.
  - by rewrite !lookup_ge_None_2 by lia.
Qed.

(** Transposing moves cells and neither drops, repeats nor changes one. *)
Lemma transpose_Permutation axes a t :
  wf a → transpose axes a = Some t → buffer t ≡ₚ buffer a.
Proof.
  intros Hwf Ht.
  pose proof (transpose_size _ _ _ Ht) as Hsize.
  pose proof (transpose_wf _ _ _ Ht) as Hwt.
  pose proof (transpose_shape _ _ _ Ht) as Hshp.
  revert Ht. unfold transpose. case_decide as Hv; [|done]. intros Ht.
  apply bind_Some in Ht as (buf' & Hm & Ht). simplify_eq. simpl in *.
  set (shp' := (λ ax, default 0 (shape a !! ax)) <$> axes) in *.
  set (src := λ k, ravel (shape a)
                (source_index (length (shape a)) axes (unravel shp' k))).
  set (n := size (shape a)) in *.
  assert (∀ k, k < n → in_bounds (source_index (length (shape a)) axes (unravel shp' k))
                                 (shape a)) as Hin.
  { intros k Hk. apply source_index_in_bounds; [done|].
    apply unravel_in_bounds. fold shp'. lia. }
  assert (∀ k, k < n → src k < n) as Hsrc.
  { intros k Hk. by apply ravel_lt, Hin. }
  apply Permutation_inj. split; [unfold wf in *; simpl in *; lia|].
  exists (λ k, if decide (k < n) then src k else k). split.
  - intros k1 k2 Heq. simpl in Heq.
    destruct (decide (k1 < n)) as [H1|H1], (decide (k2 < n)) as [H2|H2];
      try (pose proof (Hsrc _ H1)); try (pose proof (Hsrc _ H2)); try lia.
    apply (f_equal (unravel (shape a))) in Heq. unfold src in Heq.
    rewrite !unravel_ravel in Heq by (by apply Hin).
    apply source_index_inj in Heq; [|done|..].
    + rewrite <- (ravel_unravel shp' k1), <- (ravel_unravel shp' k2) by lia.
      by rewrite Heq.
    + rewrite (in_bounds_length _ shp'); [|apply unravel_in_bounds; lia].
      unfold shp'. rewrite length_fmap. apply Hv.
    + rewrite (in_bounds_length _ shp'); [|apply unravel_in_bounds; lia].
      unfold shp'. rewrite length_fmap. apply Hv.
  - intros k. pose proof (mapM_Some_1 _ _ _ Hm) as HF.
    destruct (decide (k < n)) as [Hk|Hk].
    + assert (k < size shp') as Hk' by lia.
      destruct (Forall2_lookup_l _ _ _ _ _ HF (lookup_seq_lt 0 _ k Hk'))
        as (x & Hx & Hs). by rewrite Hx, <- Hs.
    + unfold wf in *. simpl in *. by rewrite !lookup_ge_None_2 by lia.
Qed.
End transpose.


Section reshape.
Context {A : Type}.
Implicit Types a : ndarray A.

(** [a.reshape(-1, c)] *)
Lemma reshape_rows a c :
  reshape [(-1)%Z; Z.of_nat c] a =
    if decide (c ≠ 0 ∧ size (shape a) `mod` c = 0)
    then Some (NdArray [size (shape a) / c; c] (buffer a)) else None.
Proof.
  unfold reshape.
  rewrite decide_True by (repeat constructor; lia).
  rewrite !filter_cons, filter_nil.
  rewrite (decide_True (P := (-1 = -1)%Z)) by done.
  rewrite (decide_False (P := (Z.of_nat c = -1)%Z)) by lia.
  rewrite (decide_False (P := (-1 ≠ -1)%Z)) by (intros H; by apply H).
  rewrite (decide_True (P := (Z.of_nat c ≠ -1)%Z)) by lia.
  simpl. rewrite Nat2Z.id, Nat.mul_1_r.
  case_decide; [|done].
  by rewrite (decide_False (P := (Z.of_nat c = -1)%Z)) by lia.
Qed.

(** [a.reshape(n1, n2)] *)
Lemma reshape_grid a n1 n2 :
  reshape [Z.of_nat n1; Z.of_nat n2] a =
    if decide (size (shape a) = n1 * n2)
    then Some (NdArray [n1; n2] (buffer a)) else None.
Proof.
  unfold reshape.
  rewrite decide_True by (repeat constructor; lia).
  rewrite !filter_cons, filter_nil.
  rewrite !(decide_False (P := (Z.of_nat _ = -1)%Z)) by lia.
  rewrite !(decide_True (P := (Z.of_nat _ ≠ -1)%Z)) by lia.
  simpl. rewrite !Nat2Z.id, Nat.mul_1_r.
  repeat case_decide; try done; lia.
Qed.
End reshape.

End NumpyFacts.

Module ReshapeFacts.
Import Numpy Xarray Script Spec NumpyFacts.

Section reshapers.
Context {V : Type}.
Implicit Types (a t data : ndarray V) (bd : DataArray V).

Lemma item_is_Some a idx : wf a → in_bounds idx (shape a) → is_Some (item a idx).
Proof.
  intros Hwf Hb. unfold item. rewrite decide_True by done.
  apply lookup_lt_is_Some. rewrite Hwf. by apply ravel_lt.
Qed.

Lemma in_bounds_3 i0 i1 i2 n0 n1 n2 :
  in_bounds [i0; i1; i2] [n0; n1; n2] ↔ i0 < n0 ∧ i1 < n1 ∧ i2 < n2.
Proof.
  unfold in_bounds. split.
  - intros H. repeat (apply Forall2_cons_1 in H as [? H]). done.
  - intros (? & ? & ?). by repeat constructor.
Qed.

Lemma in_bounds_2 i0 i1 n0 n1 : in_bounds [i0; i1] [n0; n1] ↔ i0 < n0 ∧ i1 < n1.
Proof.
  unfold in_bounds. split.
  - intros H. repeat (apply Forall2_cons_1 in H as [? H]). done.
  - intros (? & ?). by repeat constructor.
Qed.

(** Flattening the two leading axes of a 3-D array: [t.reshape(-1, B)]. *)
Lemma reshape_stack t m1 m2 B :
  shape t = [m1; m2; B] → 0 < B →
  reshape [(-1)%Z; Z.of_nat B] t = Some (NdArray [m1 * m2; B] (buffer t)).
Proof.
  intros Hs HB. rewrite reshape_rows, Hs. simpl.
  replace (m1 * (m2 * (B * 1))) with (m1 * m2 * B) by lia.
  rewrite Nat.Div0.mod_mul, Nat.div_mul by lia.
  by rewrite decide_True by (split; [lia|done]).
Qed.

Lemma item_stack t m1 m2 B i1 i2 b :
  shape t = [m1; m2; B] → i1 < m1 → i2 < m2 → b < B →
  item (NdArray [m1 * m2; B] (buffer t)) [i1 * m2 + i2; b] = item t [i1; i2; b].
Proof.
  intros Hs H1 H2 Hb. unfold item. simpl. rewrite Hs.
  rewrite decide_True by (apply in_bounds_2; split; [nia|done]).
  rewrite decide_True by (by apply in_bounds_3).
  f_equal. simpl. lia.
Qed.

(** The Band-Stack Reshaper on a 3-D array whose named axes resolve to
    [axes]. *)
Lemma band_stack_axes bd axes n0 n1 n2 m1 m2 :
  shape (values bd) = [n0; n1; n2] → wf (values bd) → 0 < n0 →
  mapM (λ name, axis_of name (dims bd)) ["y"; "x"; "band"] = Some axes →
  valid_axes 3 axes →
  (λ ax, default 0 ([n0; n1; n2] !! ax)) <$> axes = [m1; m2; n0] →
  ∃ data, band_stack bd = inr (n0, n1, n2, data) ∧
    shape data = [m1 * m2; n0] ∧ wf data ∧
    buffer data ≡ₚ buffer (values bd) ∧
    ∀ i1 i2 b, i1 < m1 → i2 < m2 → b < n0 →
      item data [i1 * m2 + i2; b] = item (values bd) (source_index 3 axes [i1; i2; b]).
Proof.
  intros Hs Hwf H0 Haxes Hv Hshp.
  destruct (transpose_Some axes (values bd)) as [t Ht]; [done|by rewrite Hs|].
  pose proof (transpose_shape _ _ _ Ht) as Hst. rewrite Hs, Hshp in Hst.
  pose proof (transpose_wf _ _ _ Ht) as Hwt.
  exists (NdArray [m1 * m2; n0] (buffer t)). split_and!; [|done| | |].
  - unfold band_stack, Xarray.transpose. rewrite Hs, Haxes. simpl. rewrite Ht. simpl.
    by rewrite (reshape_stack t m1 m2 n0).
  - unfold wf in *. rewrite Hst in Hwt. simpl in *. lia.
  - exact (transpose_Permutation _ _ _ Hwf Ht).
  - intros i1 i2 b H1 H2 Hb. rewrite (item_stack t) by done.
    rewrite (transpose_item _ _ _ _ Ht), Hs; [done|].
    rewrite Hst. by apply in_bounds_3.
Qed.

Lemma cell_band_x_y bd b ix iy :
  dims bd = band_x_y → cell bd b ix iy = item (values bd) [b; ix; iy].
Proof. intros Hd. unfold cell, isel. by rewrite Hd. Qed.

Lemma cell_band_y_x bd b ix iy :
  dims bd = band_y_x → cell bd b ix iy = item (values bd) [b; iy; ix].
Proof. intros Hd. unfold cell, isel. by rewrite Hd. Qed.

(** The Pixel Matrix of a raster stored as (band, x, y). *)
Lemma band_stack_band_x_y bd B X Y :
  stored_as band_x_y B X Y bd → 0 < B →
  ∃ data, band_stack bd = inr (B, X, Y, data) ∧
    shape data = [X * Y; B] ∧ wf data ∧
    buffer data ≡ₚ buffer (values bd) ∧
    ∀ b ix iy, b < B → ix < X → iy < Y →
      item data [row_of X ix iy; b] = cell bd b ix iy.
Proof.
  intros (Hd & Hs & Hwf) HB.
  destruct (band_stack_axes bd [2; 1; 0] B X Y Y X) as (data & Hbs & Hsd & Hwd & Hperm & Hit);
    try done.
  - by rewrite Hd.
  - by apply (bool_decide_unpack _).
  - exists data. rewrite (Nat.mul_comm X Y). split_and!; try done.
    intros b ix iy Hb Hx Hy. unfold row_of.
    by rewrite Hit, cell_band_x_y.
Qed.

(** The Pixel Matrix of a raster stored as (band, y, x); [n_y] and
    [n_x] are the lengths of the second and third axis, which the
    script reads as [n_x] and [n_y]. *)
Lemma band_stack_band_y_x bd B n_y n_x :
  stored_as band_y_x B n_y n_x bd → 0 < B →
  ∃ data, band_stack bd = inr (B, n_y, n_x, data) ∧
    shape data = [n_y * n_x; B] ∧ wf data ∧
    buffer data ≡ₚ buffer (values bd) ∧
    ∀ b ix iy, b < B → ix < n_x → iy < n_y →
      item data [row_of n_x ix iy; b] = cell bd b ix iy.
Proof.
  intros (Hd & Hs & Hwf) HB.
  destruct (band_stack_axes bd [1; 2; 0] B n_y n_x n_y n_x) as (data & Hbs & Hsd & Hwd & Hperm & Hit);
    try done.
  - by rewrite Hd.
  - by apply (bool_decide_unpack _).
  - exists data. split_and!; try done.
    intros b ix iy Hb Hx Hy. unfold row_of.
    by rewrite Hit, cell_band_y_x.
Qed.

Lemma column_spec data rows B b :
  shape data = [rows; B] → wf data → b < B →
  ∃ col, column data b = Some col ∧ shape col = [rows] ∧ wf col ∧
    ∀ r, r < rows → buffer col !! r = item data [r; b].
Proof.
  intros Hs Hwf Hb. unfold column. rewrite Hs. simpl.
  destruct (mapM_is_Some_2 (λ r, item data [r; b]) (seq 0 rows)) as [buf Hbuf].
  { apply Forall_forall. intros r Hr. apply elem_of_seq in Hr. simpl.
    apply item_is_Some; [done|]. rewrite Hs. apply in_bounds_2. lia. }
  rewrite Hbuf. simpl. eexists. split; [done|].
  pose proof (length_mapM _ _ _ Hbuf) as Hlen. rewrite length_seq in Hlen.
  repeat split.
  - unfold wf. simpl. lia.
  - intros r Hr. simpl. apply mapM_Some_1 in Hbuf.
    destruct (Forall2_lookup_l _ _ _ _ _ Hbuf (lookup_seq_lt 0 _ _ Hr)) as (x & -> & Hx).
    done.
Qed.
End reshapers.

Section result.
Context {L : Type}.
Implicit Types labels grid : ndarray L.

(** The Result Reshaper: defined exactly on sequences of [n_x * n_y]
    labels, and then cell [(j, i)] of the grid is label [i * n_y + j]. *)
Lemma result_reshape_spec labels n_x n_y :
  wf labels →
  (size (shape labels) = n_x * n_y →
     ∃ grid, result_reshape labels n_x n_y = inr grid ∧
       shape grid = [n_y; n_x] ∧ wf grid ∧
       ∀ i j, i < n_x → j < n_y →
         item grid [j; i] = buffer labels !! (i * n_y + j)) ∧
  (size (shape labels) ≠ n_x * n_y →
     result_reshape labels n_x n_y = inl (ValueError "reshape")).
Proof.
  intros Hwf. unfold result_reshape. rewrite reshape_grid. split; intros Hn.
  - rewrite decide_True by done. simpl.
    set (g := NdArray [n_x; n_y] (buffer labels)).
    assert (wf g) as Hwg by (unfold wf in *; simpl; lia).
    destruct (transpose_Some [1; 0] g) as [grid Hg]; [done| |].
    { repeat split; [by apply NoDup_ListNoDup; repeat constructor; simpl; intuition lia
                    | repeat constructor; simpl; lia]. }
    exists grid. unfold T. change (reverse (seq 0 (length (shape g)))) with [1; 0].
    rewrite Hg. pose proof (transpose_shape _ _ _ Hg) as Hsg. simpl in Hsg.
    repeat split; [done|by eapply transpose_wf|].
    intros i j Hi Hj. rewrite (transpose_item _ _ _ _ Hg) by (rewrite Hsg; by apply in_bounds_2).
    unfold item. simpl. rewrite decide_True by (by apply in_bounds_2).
    f_equal. lia.
  - by rewrite decide_False by done.
Qed.
End result.
End ReshapeFacts.

(** * The reshapers *)

Module Reshapers.
Import Numpy Xarray Script Spec Examples NumpyFacts ReshapeFacts.

Lemma row_of_lt len_x len_y ix iy :
  ix < len_x → iy < len_y → row_of len_x ix iy < len_x * len_y.
Proof. unfold row_of. nia. Qed.

Lemma cell_of_row_of len_x ix iy :
  ix < len_x → cell_of len_x (row_of len_x ix iy) = (ix, iy).
Proof.
  intros Hx. unfold cell_of, row_of. f_equal.
  - rewrite Nat.add_comm, Nat.Div0.mod_add. by apply Nat.mod_small.
  - rewrite Nat.div_add_l by lia. rewrite Nat.div_small by done. lia.
Qed.

Lemma row_of_cell_of len_x len_y row :
  row < len_x * len_y →
  (cell_of len_x row).1 < len_x ∧ (cell_of len_x row).2 < len_y ∧
  row_of len_x (cell_of len_x row).1 (cell_of len_x row).2 = row.
Proof.
  intros Hr. assert (len_x ≠ 0) by (intros ->; lia).
  unfold cell_of, row_of. simpl. repeat split.
  - by apply Nat.mod_upper_bound.
  - apply Nat.Div0.div_lt_upper_bound. lia.
  - pose proof (Nat.div_mod_eq row len_x). lia.
Qed.

Section claims.
Context {V : Type}.
Implicit Types (bd : DataArray V).

(** The Pixel Matrix of a raster, in either storage order. *)
Lemma pixel_matrix bd B X Y :
  raster B X Y bd → 0 < B →
  ∃ n_x n_y data, band_stack bd = inr (B, n_x, n_y, data) ∧
    shape data = [X * Y; B] ∧ wf data ∧
    buffer data ≡ₚ buffer (values bd) ∧
    ∀ b ix iy, b < B → ix < X → iy < Y →
      item data [row_of X ix iy; b] = cell bd b ix iy.
Proof.
  intros [Hr | Hr] HB.
  - destruct (band_stack_band_x_y bd B X Y Hr HB) as (data & ? & ? & ? & ? & ?).
    by exists X, Y, data.
  - destruct (band_stack_band_y_x bd B Y X Hr HB) as (data & ? & Hs & ? & ? & ?).
    rewrite (Nat.mul_comm Y X) in Hs. by exists Y, X, data.
Qed.

(** C2: for a raster with B bands, X positions along x and Y along y,
    the Band-Stack Reshaper returns a Pixel Matrix of shape (X*Y, B).
    The pixel at (ix, iy) sits in row [iy * X + ix] (the (y, x) plane
    flattened row-major), which is a bijection between grid positions
    and row numbers; column b of that row holds the raster's value of
    band b at (ix, iy); and the cells of the matrix are the cells of the
    raster, rearranged. *)
Theorem band_stack_is_a_relabelling bd B X Y :
  raster B X Y bd → 0 < B →
  ∃ n_x n_y data, band_stack bd = inr (B, n_x, n_y, data) ∧
    shape data = [X * Y; B] ∧ wf data ∧
    buffer data ≡ₚ buffer (values bd) ∧
    (∀ b ix iy, b < B → ix < X → iy < Y →
       ∃ val, cell bd b ix iy = Some val ∧ item data [row_of X ix iy; b] = Some val) ∧
    (∀ row b, row < X * Y → b < B →
       ∃ val, item data [row; b] = Some val ∧
              cell bd b (cell_of X row).1 (cell_of X row).2 = Some val) ∧
    (∀ ix iy, ix < X → iy < Y →
       row_of X ix iy < X * Y ∧ cell_of X (row_of X ix iy) = (ix, iy)) ∧
    (∀ row, row < X * Y →
       (cell_of X row).1 < X ∧ (cell_of X row).2 < Y ∧
       row_of X (cell_of X row).1 (cell_of X row).2 = row).
Proof.
  intros Hr HB.
  destruct (pixel_matrix bd B X Y Hr HB) as (n_x & n_y & data & Hbs & Hs & Hwf & Hperm & Hit).
  assert (∀ b ix iy, b < B → ix < X → iy < Y →
    ∃ val, cell bd b ix iy = Some val ∧ item data [row_of X ix iy; b] = Some val) as Hcells.
  { intros b ix iy Hb Hx Hy.
    destruct (item_is_Some data [row_of X ix iy; b] Hwf) as [val Hval].
    - rewrite Hs. apply in_bounds_2. split; [by apply row_of_lt|done].
    - exists val. by rewrite <- Hit. }
  exists n_x, n_y, data. split_and!; try done.
  - intros row b Hrow Hb.
    destruct (row_of_cell_of X Y row Hrow) as (Hx & Hy & Heq).
    destruct (Hcells b _ _ Hb Hx Hy) as (val & Hc & Hi).
    exists val. by rewrite Heq in Hi.
  - intros ix iy Hx Hy. split; [by apply row_of_lt|by apply cell_of_row_of].
  - intros row Hrow. by apply row_of_cell_of.
Qed.

Lemma round_trip_from_rows bd B n_x n_y len_x len_y data :
  band_stack bd = inr (B, n_x, n_y, data) →
  shape data = [n_x * n_y; B] → wf data →
  dim_size bd "x" = Some len_x → dim_size bd "y" = Some len_y →
  n_y = len_x → n_x = len_y →
  (∀ b ix iy, b < B → ix < len_x → iy < len_y →
     item data [row_of len_x ix iy; b] = cell bd b ix iy) →
  round_trip bd.
Proof.
  intros Hbs Hs Hwf Hx Hy -> -> Hit.
  exists B, len_y, len_x, data, len_x, len_y. split_and!; try done.
  intros b Hb.
  destruct (column_spec data _ _ b Hs Hwf Hb) as (col & Hcol & Hsc & Hwc & Hcb).
  destruct (result_reshape_spec col len_y len_x Hwc) as [Hok _].
  destruct Hok as (grid & Hg & Hsg & Hwg & Hgi); [rewrite Hsc; simpl; lia|].
  exists col, grid. split_and!; try done.
  intros ix iy Hix Hiy.
  destruct (item_is_Some grid [ix; iy] Hwg) as [val Hval].
  { rewrite Hsg. by apply in_bounds_2. }
  exists val. split; [|done].
  rewrite <- Hit, <- Hval by done. rewrite Hgi by done.
  unfold row_of. symmetry. apply Hcb. nia.
Qed.

(** C1: for every raster as the loader delivers it, stored as
    (band, y, x) with lengths (B, n_x, n_y) as the script reads them off
    the shape, the Band-Stack Reshaper returns a Pixel Matrix of shape
    (n_x * n_y, B), and every band of it, reshaped to (n_x, n_y) and
    transposed by the Result Reshaper, shows at each grid position
    (ix, iy) the value the raster has there: the two reshapes are
    inverse to each other, whatever the extents. *)
Theorem round_trip_law bd B n_x n_y :
  stored_as band_y_x B n_x n_y bd → 0 < B →
  (∃ data, band_stack bd = inr (B, n_x, n_y, data) ∧ shape data = [n_x * n_y; B]) ∧
  round_trip bd.
Proof.
  intros Hr HB.
  destruct (band_stack_band_y_x bd B n_x n_y) as (data & Hbs & Hsd & Hwd & _ & Hit); [done..|].
  split; [by exists data|].
  destruct Hr as (Hd & Hs & _).
  eapply (round_trip_from_rows bd B n_x n_y n_y n_x); try done.
  - unfold dim_size. by rewrite Hd, Hs.
  - unfold dim_size. by rewrite Hd, Hs.
Qed.

(** The same holds for a raster stored as (band, x, y) when its two
    spatial extents are equal. *)
Lemma round_trip_when_axes_agree bd B X Y :
  raster B X Y bd → 0 < B →
  dims bd = band_y_x ∨ X = Y →
  round_trip bd.
Proof.
  intros [Hr | Hr] HB Hor.
  - destruct Hor as [Hd | ->]; [destruct Hr as (Hd' & _); by rewrite Hd' in Hd|].
    destruct (band_stack_band_x_y bd B Y Y) as (data & Hbs & Hsd & Hwd & _ & Hit); [done..|].
    destruct Hr as (Hd & Hs & _).
    eapply (round_trip_from_rows bd B Y Y Y Y); try done.
    + unfold dim_size. by rewrite Hd, Hs.
    + unfold dim_size. by rewrite Hd, Hs.
  - destruct (band_stack_band_y_x bd B Y X) as (data & Hbs & Hsd & Hwd & _ & Hit); [done..|].
    destruct Hr as (Hd & Hs & _).
    eapply (round_trip_from_rows bd B Y X X Y); try done.
    + unfold dim_size. by rewrite Hd, Hs.
    + unfold dim_size. by rewrite Hd, Hs.
Qed.

(** The condition is the exact one: a non-empty raster stored as
    (band, x, y) with unequal extents never makes the round trip, since
    the grid that comes back has the two extents swapped. *)
Lemma round_trip_only_when_axes_agree bd B X Y :
  raster B X Y bd → 0 < B → 0 < X → 0 < Y →
  round_trip bd → dims bd = band_y_x ∨ X = Y.
Proof.
  intros [Hr | Hr] HB HX HY Hrt; [|left; apply Hr].
  destruct (decide (X = Y)) as [|Hne]; [by right|]. exfalso.
  destruct (band_stack_band_x_y bd B X Y) as (data & Hbs & Hsd & Hwd & _ & _); [done..|].
  destruct Hr as (Hd & Hs & _).
  destruct Hrt as (nb & nx & ny & data' & lx & ly & Hbs' & Hx & Hy & Hall).
  rewrite Hbs in Hbs'. simplify_eq.
  unfold dim_size in Hx, Hy. rewrite Hd, Hs in Hx, Hy. simpl in Hx, Hy. simplify_eq.
  destruct (Hall 0 HB) as (col & grid & Hcol & Hg & Hcells).
  destruct (column_spec data' _ _ 0 Hsd Hwd HB) as (col' & Hcol' & Hsc & Hwc & _).
  rewrite Hcol in Hcol'. simplify_eq.
  destruct (result_reshape_spec col' lx ly Hwc) as [Hok _].
  destruct Hok as (grid' & Hg' & Hsg & _); [rewrite Hsc; simpl; lia|].
  rewrite Hg in Hg'. simplify_eq.
  destruct (decide (lx < ly)).
  - destruct (Hcells 0 (ly - 1)) as (val & _ & Hi); [lia..|].
    unfold item in Hi. rewrite Hsg in Hi.
    rewrite decide_False in Hi; [done|]. rewrite in_bounds_2. lia.
  - destruct (Hcells (lx - 1) 0) as (val & _ & Hi); [lia..|].
    unfold item in Hi. rewrite Hsg in Hi.
    rewrite decide_False in Hi; [done|]. rewrite in_bounds_2. lia.
Qed.

Lemma add_clusters_band_y_x (xds : @Dataset V) (grid : ndarray Z) B n_y n_x :
  stored_as band_y_x B n_y n_x (band_data xds) → shape grid = [n_x; n_y] →
  add_clusters xds grid =
    inr (MkDataset (band_data xds) (Some (MkDataArray ["x"; "y"] grid))).
Proof.
  intros (Hd & Hs & _) Hg. unfold add_clusters, same_size, dim_size. simpl.
  rewrite Hd, Hs, Hg. simpl.
  by rewrite !bool_decide_eq_true_2 by done.
Qed.

(** C3: on a flat sequence of X*Y labels the Result Reshaper returns the
    grid of shape (Y, X) whose cell (j, i) is label [i * Y + j], the
    transpose of the row-major (X, Y) grid; that grid has the lengths
    the dataset has for [x] and [y] when the raster's second and third
    axis, of lengths X and Y, are [y] and [x]; and the reshaper fails
    only when the sequence does not have X*Y labels. *)
Theorem result_reshape_total (labels : ndarray Z) n X Y :
  shape labels = [n] → wf labels →
  (n = X * Y →
     ∃ grid, result_reshape labels X Y = inr grid ∧
       shape grid = [Y; X] ∧ wf grid ∧
       (∀ i j, i < X → j < Y → item grid [j; i] = item labels [i * Y + j]) ∧
       (∀ (xds : @Dataset V) B, stored_as band_y_x B X Y (band_data xds) →
          add_clusters xds grid =
            inr (MkDataset (band_data xds) (Some (MkDataArray ["x"; "y"] grid))))) ∧
  (n ≠ X * Y → result_reshape labels X Y = inl (ValueError "reshape")).
Proof.
  intros Hs Hwf. destruct (result_reshape_spec labels X Y Hwf) as [Hok Hbad].
  rewrite Hs in Hok, Hbad. simpl in Hok, Hbad. split.
  - intros ->. destruct Hok as (grid & Hg & Hsg & Hwg & Hgi); [lia|].
    exists grid. split_and!; try done.
    + intros i j Hi Hj. rewrite Hgi by done. unfold item. rewrite Hs.
      rewrite decide_True by (repeat constructor; nia).
      simpl. f_equal. lia.
    + intros xds B Hr. by eapply add_clusters_band_y_x.
  - intros Hn. apply Hbad. lia.
Qed.
End claims.

(** An array stored as (band, x, y), which the loader does not deliver,
    with two [x] and three [y] positions does not make the round trip:
    the grid that comes back shows 11, the value of cell (1, 1), at
    position (0, 1), whose value is 1. *)
Lemma round_trip_fails_band_x_y_2x3 :
  raster 1 2 3 raster_bxy_2x3 ∧ ¬ round_trip raster_bxy_2x3.
Proof.
  split; [by left|].
  intros (nb & nx & ny & data & lx & ly & Hbs & Hx & Hy & Hall).
  vm_compute in Hbs, Hx, Hy. simplify_eq.
  destruct (Hall 0) as (col & grid & Hcol & Hg & Hcells); [lia|].
  vm_compute in Hcol. simplify_eq.
  vm_compute in Hg. simplify_eq.
  destruct (Hcells 0 1) as (val & Hc & Hi); [lia..|].
  vm_compute in Hc, Hi. congruence.
Qed.

Lemma round_trip_when_axes_agree_witness :
  round_trip raster_byx_3x2 ∧ round_trip raster_bxy_2x2.
Proof.
  split.
  - apply (round_trip_when_axes_agree raster_byx_3x2 1 2 3);
      [right; repeat split; reflexivity | lia | left; reflexivity].
  - apply (round_trip_when_axes_agree raster_bxy_2x2 2 2 2);
      [left; repeat split; reflexivity | lia | right; reflexivity].
Defined.

Lemma round_trip_law_witness :
  (∃ data, band_stack raster_byx_3x2 = inr (1, 3, 2, data) ∧ shape data = [3 * 2; 1]) ∧
  round_trip raster_byx_3x2.
Proof.
  apply (round_trip_law raster_byx_3x2 1 3 2); [repeat split; reflexivity | lia].
Defined.

Lemma band_stack_is_a_relabelling_witness :
  ∃ n_x n_y data,
    band_stack raster_byx_3x2 = inr (1, n_x, n_y, data) ∧ shape data = [2 * 3; 1].
Proof.
  destruct (band_stack_is_a_relabelling raster_byx_3x2 1 2 3)
    as (n_x & n_y & data & Hbs & Hs & _).
  - right. repeat split; reflexivity.
  - lia.
  - by exists n_x, n_y, data.
Defined.

Lemma result_reshape_total_witness :
  ∃ grid, result_reshape (NdArray [6] [0; 10; 1; 11; 2; 12]%Z) 3 2 = inr grid ∧
    shape grid = [2; 3].
Proof.
  destruct (result_reshape_total (V := Z) (NdArray [6] [0; 10; 1; 11; 2; 12]%Z) 6 3 2)
    as [Hok _]; [reflexivity | reflexivity |].
  destruct Hok as (grid & Hg & Hs & _); [reflexivity|].
  by exists grid.
Defined.

(** On a raster stored as (band, x, y) with unequal extents the grid does
    not even fit the dataset: adding it is refused. *)
Example add_clusters_band_x_y_2x3 :
  (r ← band_stack raster_bxy_2x3;
   col ← or_else IndexError (column r.2 0);
   grid ← result_reshape col 2 3;
   add_clusters (MkDataset raster_bxy_2x3 None) grid)
  = inl (ValueError "conflicting sizes").
Proof. reflexivity. Qed.
End Reshapers.

(** * The command line, the logger, the loader and the clusterer *)

Module Pipeline.
Import Numpy Xarray Script Spec Examples Clusterer.

Lemma parse_loop_spec argv : ∀ file extras n0 v0 ns,
  parse_loop argv file extras n0 v0 = inr ns →
  v ns = (v0 + Z.of_nat (count_v argv))%Z ∧
  (has_n_clusters argv = false → n_clusters ns = n0).
Proof.
  induction argv as [|a argv IH]; intros file extras n0 v0 ns Hp; simpl in Hp.
  - destruct file, extras; simplify_eq. simpl. split; [lia|done].
  - destruct a as [s|n|times| |s|s]; simpl; try done.
    + destruct file; by apply IH in Hp.
    + apply IH in Hp as [Hv _]. done.
    + apply IH in Hp as [Hv Hn]. split; [lia|done].
    + by apply IH in Hp.
Qed.

Lemma level_table_lookup (c : Z) :
  level_table !! c =
    if decide (c = 0)%Z then Some ERROR
    else if decide (c = 1)%Z then Some WARNING
    else if decide (c = 2)%Z then Some INFO
    else if decide (c = 3)%Z then Some DEBUG
    else None.
Proof.
  unfold level_table.
  rewrite !lookup_insert, lookup_singleton.
  repeat case_decide; first [done | lia].
Qed.

Section pipeline.
Context {V RandomState : Type}.
Context (RandomState_seed : Z → RandomState).
Context (xr_open_dataset : string → exn + @Dataset V).
Context (k_means : RandomState → Z → ndarray V → (exn + ndarray Z) * RandomState).
Implicit Types w : @world RandomState.

Lemma setup_logging_spec (c : Z) w :
  setup_logging c w =
    match level_table !! c with
    | Some lvl => if root_configured w then (inr (), w)
                  else (inr (), MkWorld true lvl (np_random w) (trace w))
    | None => (inl (KeyError c), w)
    end.
Proof. unfold Script.setup_logging. by destruct (level_table !! c). Qed.

Lemma ERROR_is_emitted (lvl : level) : (levelno lvl ≤ levelno ERROR)%Z.
Proof. destruct lvl; simpl; lia. Qed.

(** What a call of [classify_data] amounts to. *)
Lemma classify_data_spec (flat_data : ndarray V) (K : option Z) w :
  classify_data RandomState_seed k_means flat_data K w =
    let n := default 5%Z K in
    match (k_means (RandomState_seed 9) n flat_data).1 with
    | inl e =>
        if is_Exception e then
          (inl e, MkWorld true (root_level w) (np_random w)
                    (trace w ++ [FitPredict n 9;
                                 Emit ERROR ("Error during classification: " +:+ exn_msg e)]))
        else
          (inl e, MkWorld (root_configured w) (root_level w) (np_random w)
                    (trace w ++ [FitPredict n 9]))
    | inr labels =>
        (inr labels, MkWorld true (root_level w) (np_random w)
                       (trace w ++ FitPredict n 9 ::
                          if decide (levelno (root_level w) ≤ levelno INFO)%Z
                          then [Emit INFO "Data classified successfully."] else []))
    end.
Proof.
  unfold Script.classify_data, try_except_reraise. simpl.
  unfold mbind, M_bind, bind, record, KMeans_fit_predict. simpl.
  destruct (k_means (RandomState_seed 9) (default 5%Z K) flat_data) as [[e|labels] g]; simpl.
  - destruct (is_Exception e); [|done].
    unfold logging_error, logging_log. simpl.
    rewrite decide_True by apply ERROR_is_emitted.
    by rewrite <- app_assoc.
  - unfold logging_info, logging_log. simpl.
    case_decide; simpl; [by rewrite <- app_assoc|done].
Qed.

(** What a call of [load_data] amounts to. *)
Lemma load_data_spec (path : string) w :
  load_data xr_open_dataset path w =
    match xr_open_dataset path with
    | inl e =>
        if is_Exception e then
          (inl e, MkWorld true (root_level w) (np_random w)
                    (trace w ++ [OpenDataset path "rasterio";
                                 Emit ERROR ("Error loading data from " +:+ path +:+ ": "
                                             +:+ exn_msg e)]))
        else
          (inl e, MkWorld (root_configured w) (root_level w) (np_random w)
                    (trace w ++ [OpenDataset path "rasterio"]))
    | inr data =>
        (inr data, MkWorld true (root_level w) (np_random w)
                     (trace w ++ OpenDataset path "rasterio" ::
                        if decide (levelno (root_level w) ≤ levelno INFO)%Z
                        then [Emit INFO ("Data loaded successfully from " +:+ path)] else []))
    end.
Proof.
  unfold Script.load_data, try_except_reraise. simpl.
  unfold mbind, M_bind, bind, record, lift. simpl.
  destruct (xr_open_dataset path) as [e|data]; simpl.
  - destruct (is_Exception e); [|done].
    unfold logging_error, logging_log. simpl.
    rewrite decide_True by apply ERROR_is_emitted.
    by rewrite <- app_assoc.
  - unfold logging_info, logging_log. simpl.
    case_decide; simpl; [by rewrite <- app_assoc|done].
Qed.

(** C4: the labels [classify_data] returns for a matrix and a cluster
    count do not depend on the state the process is in (the logger, the
    events so far, numpy's global generator), because the solver is
    always started from the generator seeded with 9; in particular a
    second run, started in the state the first run leaves, returns the
    labels of the first. *)
Theorem classify_data_deterministic (flat_data : ndarray V) (K : option Z) w1 w2 :
  let run := classify_data RandomState_seed k_means flat_data K in
  (run w1).1 = (run w2).1 ∧
  (run (run w1).2).1 = (run w1).1 ∧
  np_random (run w1).2 = np_random w1.
Proof.
  simpl. rewrite !classify_data_spec. simpl.
  by destruct (k_means (RandomState_seed 9) (default 5%Z K) flat_data).1 as [e|labels];
    [destruct (is_Exception e)|].
Qed.

(** C7, as the code has it: [classify_data] fails exactly when the
    solver it calls raises, and then with the solver's own exception,
    unchanged; when that exception is an [Exception] one ERROR line
    carrying the cause is written before it is raised again, otherwise
    none; on success it returns the solver's labels and writes no ERROR
    line.  The result is either an exception or a full label array,
    never both.  The code does not test K itself: with a solver that,
    like scikit-learn's, rejects a cluster count exactly when it is below
    1 or above the number of rows, those are the K for which
    [classify_data] fails. *)
Theorem classify_data_reraises (flat_data : ndarray V) (K : option Z) w :
  let k := default 5%Z K in
  let solved := (k_means (RandomState_seed 9) k flat_data).1 in
  let run := classify_data RandomState_seed k_means flat_data K w in
  run.1 = solved ∧
  (∀ e, solved = inl e →
     trace run.2 =
       trace w ++ FitPredict k 9 ::
         if is_Exception e
         then [Emit ERROR ("Error during classification: " +:+ exn_msg e)] else []) ∧
  (∀ labels, solved = inr labels →
     Forall (λ ev, ∀ msg, ev ≠ Emit ERROR msg) (drop (length (trace w)) (trace run.2))) ∧
  ((∀ g n X, (∃ e, (k_means g n X).1 = inl e) ↔ (n ≤ 0 ∨ Z.of_nat (n_samples X) < n)%Z) →
   ((∃ e, run.1 = inl e) ↔ (k ≤ 0 ∨ Z.of_nat (n_samples flat_data) < k)%Z)).
Proof.
  simpl.
  assert ((classify_data RandomState_seed k_means flat_data K w).1
          = (k_means (RandomState_seed 9) (default 5%Z K) flat_data).1) as Hres.
  { rewrite classify_data_spec. simpl.
    by destruct (k_means (RandomState_seed 9) (default 5%Z K) flat_data).1 as [e|labels];
      [destruct (is_Exception e)|]. }
  split_and!; [done| | |].
  - intros e He. rewrite classify_data_spec. simpl. rewrite He.
    by destruct (is_Exception e).
  - intros labels Hl. rewrite classify_data_spec. simpl. rewrite Hl. simpl.
    rewrite drop_app_length. case_decide; repeat constructor; done.
  - intros Hsolver. rewrite Hres. apply Hsolver.
Qed.

(** C8, as the code has it: when opening the file raises, [load_data]
    makes that one attempt and raises the very exception the opener
    raised; when that exception is an [Exception], as the error for a
    missing file is, one ERROR line carrying the path and the cause is
    written first, otherwise none. *)
Theorem load_data_reraises (path : string) (e : exn) w :
  xr_open_dataset path = inl e →
  load_data xr_open_dataset path w =
    (inl e,
     if is_Exception e then
       MkWorld true (root_level w) (np_random w)
         (trace w ++ [OpenDataset path "rasterio";
                      Emit ERROR ("Error loading data from " +:+ path +:+ ": "
                                  +:+ exn_msg e)])
     else
       MkWorld (root_configured w) (root_level w) (np_random w)
         (trace w ++ [OpenDataset path "rasterio"])).
Proof. intros He. rewrite load_data_spec, He. by destruct (is_Exception e). Qed.

(** C9: [--n_clusters] is 5 unless given, [args.v] is the number of [v]
    letters on the command line, and with 0, 1, 2, 3 letters
    [setup_logging] sets the root logger to ERROR, WARNING, INFO,
    DEBUG. *)
Theorem verbosity_levels_and_default (argv : list arg) (ns : Namespace) w :
  parse_args argv = inr ns →
  (has_n_clusters argv = false → n_clusters ns = 5%Z) ∧
  v ns = Z.of_nat (count_v argv) ∧
  (root_configured w = false →
   ∀ lvl, (count_v argv, lvl) ∈ [(0, ERROR); (1, WARNING); (2, INFO); (3, DEBUG)] →
     setup_logging (v ns) w = (inr (), MkWorld true lvl (np_random w) (trace w))).
Proof.
  intros Hp. apply parse_loop_spec in Hp as [Hv Hn]. split_and!; [done|lia|].
  intros Hw lvl Hin. rewrite setup_logging_spec, level_table_lookup, Hw, Hv.
  rewrite !elem_of_cons, elem_of_nil in Hin.
  destruct Hin as [Hin|[Hin|[Hin|[Hin|[]]]]]; injection Hin as Hc ->; by rewrite Hc.
Qed.

(** C10: with more than three [v] letters the level lookup finds no
    key: [setup_logging] raises KeyError, and [main] stops there, with
    nothing logged, no file opened and the process state as it was;
    [setup_logging] accepts exactly the counts 0 to 3. *)
Theorem verbosity_above_3_is_a_KeyError (argv : list arg) (ns : Namespace) w :
  parse_args argv = inr ns → 3 < count_v argv →
  setup_logging (v ns) w = (inl (KeyError (v ns)), w) ∧
  main RandomState_seed xr_open_dataset k_means argv w
    = (inl (KeyError (Z.of_nat (count_v argv))), w) ∧
  (∀ c w', (∃ w'', setup_logging c w' = (inr (), w'')) ↔ (0 ≤ c ≤ 3)%Z).
Proof.
  intros Hp Hc. pose proof (parse_loop_spec _ _ _ _ _ _ Hp) as [Hv _]. simpl in Hv.
  assert (level_table !! v ns = None) as Hnone.
  { rewrite level_table_lookup. repeat case_decide; first [done | lia]. }
  split_and!.
  - by rewrite setup_logging_spec, Hnone.
  - unfold Script.main. unfold mbind at 1. unfold M_bind, bind, lift. rewrite Hp.
    unfold mbind at 1. unfold M_bind, bind.
    rewrite setup_logging_spec, Hnone. by rewrite Hv.
  - intros c w'. rewrite setup_logging_spec, level_table_lookup. split.
    + intros [w'' Hs]. repeat case_decide; first [lia | done].
    + intros Hr. repeat case_decide; try lia; destruct (root_configured w'); eauto.
Qed.
End pipeline.

Lemma load_data_reraises_witness :
  one_file_open "missing.tif"
    = inl (Exn "RasterioIOError" "missing.tif: No such file or directory") ∧
  load_data one_file_open "missing.tif" fresh_world
    = (inl (Exn "RasterioIOError" "missing.tif: No such file or directory"),
       MkWorld true WARNING 0
         [OpenDataset "missing.tif" "rasterio";
          Emit ERROR
            "Error loading data from missing.tif: missing.tif: No such file or directory"]).
Proof.
  split; [reflexivity|].
  by rewrite (load_data_reraises one_file_open "missing.tif" _ fresh_world eq_refl).
Defined.

(** On a path that does not exist the exception that reaches the caller
    is the opener's, here rasterio's; it is not a DataLoadError. *)
Lemma load_data_not_DataLoadError :
  (∃ e, one_file_open "missing.tif" = inl e) ∧
  ¬ raises (load_data one_file_open "missing.tif" fresh_world).1 "DataLoadError".
Proof. split; [by eexists|]. vm_compute. discriminate. Qed.

(** With K = 0 the solver rejects its argument and that exception reaches
    the caller; it is not a ClassificationError.  With K = 2 on two equal
    rows the cluster count exceeds the number of distinct rows, which is
    one, and nothing fails. *)
Lemma classify_data_not_ClassificationError :
  let X := NdArray [2; 1] [1; 1]%Z in
  let zero := (classify_data Z.to_nat checking_k_means X (Some 0%Z) fresh_world).1 in
  let two := (classify_data Z.to_nat checking_k_means X (Some 2%Z) fresh_world).1 in
  ((∃ e, zero = inl e) ∧ ¬ raises zero "ClassificationError") ∧
  (length (distinct_rows X) = 1 ∧ two = inr (NdArray [2] [0; 0]%Z)).
Proof.
  split; [split; [by eexists|]; vm_compute; discriminate|].
  split; reflexivity.
Qed.

Lemma checking_k_means_rejects (g : nat) (n : Z) (X : ndarray Z) :
  (∃ e, (checking_k_means g n X).1 = inl e) ↔ (n ≤ 0 ∨ Z.of_nat (n_samples X) < n)%Z.
Proof.
  unfold checking_k_means. repeat case_decide; simpl; split;
    first [lia | by eauto | by intros [? ?]].
Qed.

Lemma classify_data_reraises_witness :
  ∃ e, (classify_data Z.to_nat checking_k_means
          (NdArray [2; 1] [1; 1]%Z) (Some 3%Z) fresh_world).1 = inl e.
Proof.
  destruct (classify_data_reraises Z.to_nat checking_k_means
              (NdArray [2; 1] [1; 1]%Z) (Some 3%Z) fresh_world) as (_ & _ & _ & Hiff).
  apply Hiff; [apply checking_k_means_rejects|]. right. reflexivity.
Defined.

Lemma verbosity_levels_and_default_witness :
  n_clusters (MkNamespace "viirs.tif" 5 2) = 5%Z ∧
  setup_logging 2 fresh_world = (inr (), MkWorld true INFO 0 []).
Proof.
  destruct (verbosity_levels_and_default (RandomState := nat)
              [FlagV 1; Word "viirs.tif"; FlagV 1] (MkNamespace "viirs.tif" 5 2)
              fresh_world eq_refl) as (Hn & _ & Hl).
  split; [by apply Hn|]. apply Hl; [done|]. simpl. set_solver.
Defined.

Lemma verbosity_above_3_is_a_KeyError_witness :
  main Z.to_nat one_file_open checking_k_means [FlagV 4; Word "viirs.tif"] fresh_world
    = (inl (KeyError 4), fresh_world).
Proof.
  destruct (verbosity_above_3_is_a_KeyError Z.to_nat one_file_open checking_k_means
              [FlagV 4; Word "viirs.tif"] (MkNamespace "viirs.tif" 5 4) fresh_world)
    as (_ & Hm & _); [reflexivity | simpl; lia | exact Hm].
Defined.

(** Without the fixed seed the solver would draw from numpy's global
    generator, and a second run could return other labels. *)
Example unseeded_runs_differ :
  let X := NdArray [1; 1] [7%Z] in
  let run1 := KMeans_fit_predict Z.to_nat echo_k_means 5 None X fresh_world in
  let run2 := KMeans_fit_predict Z.to_nat echo_k_means 5 None X run1.2 in
  run1.1 ≠ run2.1.
Proof. vm_compute. discriminate. Qed.

(** The whole script on a well-formed input. *)
Example main_runs :
  (main Z.to_nat one_file_open checking_k_means
        [Word "viirs.tif"; FlagV 2; OptNClusters 1] fresh_world).1 = inr ().
Proof. reflexivity. Qed.
End Pipeline.


(** * The Pixel Clusterer of the specification *)

Module Clustering.
Import Numpy Xarray Script Spec Examples Clusterer Pipeline.

Lemma rows_length {A} (X : ndarray A) : length (rows X) = n_samples X.
Proof. unfold rows. by rewrite length_fmap, length_seq. Qed.

Lemma some_distinct_row (X : ndarray Q) : 0 < n_samples X → 0 < length (distinct_rows X).
Proof.
  intros Hn. rewrite <- rows_length in Hn. unfold distinct_rows.
  destruct (rows X) as [|r rws] eqn:E; [simpl in Hn; lia|].
  assert (r ∈ remove_dups (r :: rws)) as Hin by (apply elem_of_remove_dups; left).
  destruct (remove_dups (r :: rws)); [by apply elem_of_nil in Hin|simpl; lia].
Qed.

Lemma argmin_from_lt (ds : list Q) : ∀ i best least,
  best < i → argmin_from i best least ds < i + length ds.
Proof.
  induction ds as [|d ds IH]; intros i best least Hb; simpl; [lia|].
  destruct (Qlt_le_dec d least).
  - specialize (IH (S i) i d). lia.
  - specialize (IH (S i) best least). lia.
Qed.

Lemma nearest_lt (centroids : list (list Q)) (r : list Q) :
  0 < length centroids → nearest centroids r < length centroids.
Proof.
  intros Hc. unfold nearest.
  destruct centroids as [|c cs]; [simpl in Hc; lia|]. simpl.
  pose proof (argmin_from_lt (sqdist r <$> cs) 1 0 (sqdist r c)) as Hlt.
  rewrite length_fmap in Hlt. specialize (Hlt (Nat.lt_0_1)).
  eapply Nat.lt_le_trans; [exact Hlt|lia].
Qed.

Section clusterer.
Context {RandomState : Type}.
Context (RandomState_seed : Z → RandomState).
Context (randint : RandomState → nat → nat * RandomState).
Context (max_iter : nat).
Implicit Types (w : @world RandomState) (X : ndarray Q).

Lemma initial_length (k : nat) : ∀ pool g,
  k ≤ length pool → length (initial randint k pool g).1 = k.
Proof.
  induction k as [|k IH]; intros pool g Hk; [done|]. simpl.
  destruct (randint g (length pool)) as [draw g'].
  assert (draw `mod` length pool < length pool) as Hi
    by (apply Nat.mod_upper_bound; lia).
  destruct (lookup_lt_is_Some_2 pool _ Hi) as [c Hc]. rewrite Hc.
  specialize (IH (delete (draw `mod` length pool) pool) g').
  destruct (initial randint k (delete (draw `mod` length pool) pool) g') as [cs g''].
  simpl in *. rewrite IH; [done|]. rewrite length_delete by eauto. lia.
Qed.

Lemma recompute_length (centroids rws : list (list Q)) :
  length (recompute centroids rws) = length centroids.
Proof. unfold recompute. apply length_imap. Qed.

Lemma refine_length (iterations : nat) : ∀ centroids rws,
  length (refine iterations centroids rws) = length centroids.
Proof.
  induction iterations as [|n IH]; intros centroids rws; simpl; [done|].
  case_decide; [|rewrite IH]; apply recompute_length.
Qed.

(** With a cluster count from 1 to the number of distinct rows the
    clusterer returns, for some K centroids, the number of the nearest
    one for every row. *)
Lemma pixel_clusterer_labels (g : RandomState) (K : Z) X :
  (1 ≤ K ≤ Z.of_nat (length (distinct_rows X)))%Z →
  ∃ centroids, length centroids = Z.to_nat K ∧
    (pixel_clusterer randint max_iter g K X).1 =
      inr (NdArray [n_samples X] (Z.of_nat <$> (nearest centroids <$> rows X))).
Proof.
  intros HK. unfold pixel_clusterer. rewrite decide_False by lia.
  pose proof (initial_length (Z.to_nat K) (distinct_rows X) g ltac:(lia)) as Hlen.
  destruct (initial randint (Z.to_nat K) (distinct_rows X) g) as [cs g'].
  exists (refine max_iter cs (rows X)). split; [|done].
  by rewrite refine_length.
Qed.

Lemma classify_data_result {V} (k_means : RandomState → Z → ndarray V → (exn + ndarray Z) * RandomState)
    (flat_data : ndarray V) (K : Z) w :
  (classify_data RandomState_seed k_means flat_data (Some K) w).1
    = (k_means (RandomState_seed 9) K flat_data).1.
Proof.
  rewrite classify_data_spec. simpl.
  by destruct (k_means (RandomState_seed 9) K flat_data).1 as [e|labels];
    [destruct (is_Exception e)|].
Qed.

(** C5: on every Pixel Matrix with at least one row the Pixel Clusterer,
    invoked through [classify_data] with K = 1, returns one label per
    row, and all of them are the same label, 0. *)
Theorem one_cluster_one_label X w :
  0 < n_samples X →
  ∃ labels,
    (classify_data RandomState_seed (pixel_clusterer randint max_iter) X (Some 1%Z) w).1
      = inr labels ∧
    shape labels = [n_samples X] ∧ length (buffer labels) = n_samples X ∧
    (∀ i l, buffer labels !! i = Some l → l = 0%Z) ∧
    (∀ i j l1 l2, buffer labels !! i = Some l1 → buffer labels !! j = Some l2 → l1 = l2).
Proof.
  intros Hn. pose proof (some_distinct_row X Hn) as Hd.
  destruct (pixel_clusterer_labels (RandomState_seed 9) 1%Z X) as (cs & Hlen & Hres); [lia|].
  eexists. rewrite classify_data_result. split; [exact Hres|]. simpl.
  assert (∀ i l, (Z.of_nat <$> (nearest cs <$> rows X)) !! i = Some l → l = 0%Z) as Hzero.
  { intros i l. rewrite !list_lookup_fmap.
    destruct (rows X !! i) as [r|]; [|done]. simpl. intros [= <-].
    pose proof (nearest_lt cs r) as Hlt. rewrite Hlen in Hlt.
    change (Z.to_nat 1) with 1 in Hlt. lia. }
  split_and!; [done| |done|].
  - by rewrite !length_fmap, rows_length.
  - intros i j l1 l2 H1 H2. apply Hzero in H1, H2. congruence.
Qed.

(** C6: on every Pixel Matrix with at least one row the Pixel Clusterer,
    invoked through [classify_data] with K equal to the number of
    distinct rows, returns one label from 0 to K-1 for every row, and
    rows with the same values receive the same label. *)
Theorem equal_rows_equal_labels X w :
  0 < n_samples X →
  let K := Z.of_nat (length (distinct_rows X)) in
  ∃ labels,
    (classify_data RandomState_seed (pixel_clusterer randint max_iter) X (Some K) w).1
      = inr labels ∧
    shape labels = [n_samples X] ∧
    (∀ i, i < n_samples X → ∃ l, buffer labels !! i = Some l ∧ (0 ≤ l < K)%Z) ∧
    (∀ i j r, rows X !! i = Some r → rows X !! j = Some r →
       buffer labels !! i = buffer labels !! j).
Proof.
  intros Hn K. pose proof (some_distinct_row X Hn) as Hd.
  destruct (pixel_clusterer_labels (RandomState_seed 9) K X) as (cs & Hlen & Hres);
    [unfold K; lia|].
  eexists. rewrite classify_data_result. split; [exact Hres|]. simpl.
  split_and!; [done| |].
  - intros i Hi. rewrite <- rows_length in Hi.
    destruct (lookup_lt_is_Some_2 _ _ Hi) as [r Hr].
    exists (Z.of_nat (nearest cs r)). rewrite !list_lookup_fmap, Hr. split; [done|].
    pose proof (nearest_lt cs r) as Hlt. rewrite Hlen in Hlt. unfold K in *. lia.
  - intros i j r Hi Hj. by rewrite !list_lookup_fmap, Hi, Hj.
Qed.
End clusterer.

Lemma one_cluster_one_label_witness :
  ∃ labels,
    (classify_data Z.to_nat (pixel_clusterer counting_randint 10) four_pixels (Some 1%Z)
       fresh_world).1 = inr labels ∧
    shape labels = [4].
Proof.
  destruct (one_cluster_one_label Z.to_nat counting_randint 10 four_pixels fresh_world)
    as (labels & Hres & Hs & _); [vm_compute; lia|].
  by exists labels.
Defined.

Lemma equal_rows_equal_labels_witness :
  ∃ labels,
    (classify_data Z.to_nat (pixel_clusterer counting_randint 10) four_pixels (Some 3%Z)
       fresh_world).1 = inr labels ∧
    buffer labels !! 0 = buffer labels !! 2.
Proof.
  destruct (equal_rows_equal_labels Z.to_nat counting_randint 10 four_pixels fresh_world)
    as (labels & Hres & _ & _ & Hsame); [vm_compute; lia|].
  exists labels. split; [exact Hres|].
  by apply (Hsame 0 2 [0; 1]%Q).
Defined.
End Clustering.

(** * Further properties of the script *)

Module Extras.
Import Numpy Xarray Script Spec Examples Observe MoreExamples NumpyFacts ReshapeFacts Pipeline.

(** ** The command line *)

Lemma parse_loop_words argv : ∀ file extras n0 v0,
  parse_loop argv file extras n0 v0 =
    match first_stop argv with
    | Some e => inl e
    | None =>
        match option_list file ++ words argv with
        | [f] =>
            if extras || has_unknown argv then inl SystemExit
            else inr (MkNamespace f
                        (foldl (λ n a, match a with OptNClusters m => m | _ => n end) n0 argv)
                        (v0 + Z.of_nat (count_v argv)))
        | _ => inl SystemExit
        end
    end.
Proof.
  induction argv as [|a argv IH]; intros file extras n0 v0.
  - destruct file, extras; simpl; try done. do 2 f_equal. lia.
  - destruct a as [s|m|times| |s|s]; simpl; try done.
    + destruct file as [f|]; simpl; rewrite IH; [|done].
      destruct (first_stop argv); [done|]. simpl. by destruct (words argv).
    + rewrite IH. destruct (first_stop argv); [done|].
      destruct (option_list file ++ words argv) as [|f [|??]]; try done.
      destruct (extras || has_unknown argv); [done|]. do 2 f_equal. lia.
    + rewrite IH. destruct (first_stop argv); [done|].
      destruct (option_list file ++ words argv) as [|f [|??]]; try done.
      by rewrite orb_true_r.
Qed.

(** X1: the parser takes the arguments from left to right and exits with
    status 0 at the first help option, with status 2 at the first
    argument it refuses on the spot, whichever comes first.  Without
    either it accepts the command line exactly when it carries one bare
    word and no unknown option; the word becomes [viirs_file],
    [n_clusters] is the value of the last [--n_clusters] (5 without one)
    and [v] the number of [v] letters, wherever the options stand.  In
    every other case it exits with status 2. *)
Theorem parse_args_one_word (argv : list arg) :
  parse_args argv =
    match first_stop argv with
    | Some e => inl e
    | None =>
        match words argv with
        | [f] =>
            if has_unknown argv then inl SystemExit
            else inr (MkNamespace f (last_n_clusters argv) (Z.of_nat (count_v argv)))
        | _ => inl SystemExit
        end
    end.
Proof. unfold parse_args. by rewrite parse_loop_words. Qed.

(** ** The logger *)

Section logger.
Context {RandomState : Type}.
Implicit Types w : @world RandomState.

(** X2: once [setup_logging] has configured a fresh root logger with a count
    from 0 to 3, the script's INFO lines are written exactly for counts
    2 and 3, and its ERROR lines for every count. *)
Theorem info_needs_two_v (c : Z) w (msg : string) :
  root_configured w = false → (0 ≤ c ≤ 3)%Z →
  let w1 := (setup_logging c w).2 in
  trace (logging_info msg w1).2
    = (if decide (2 ≤ c)%Z then trace w ++ [Emit INFO msg] else trace w) ∧
  trace (logging_error msg w1).2 = trace w ++ [Emit ERROR msg].
Proof.
  intros Hw Hc. simpl. rewrite setup_logging_spec, level_table_lookup, Hw.
  assert (c = 0 ∨ c = 1 ∨ c = 2 ∨ c = 3)%Z as [-> | [-> | [-> | ->]]] by lia;
    by split.
Qed.
End logger.

Lemma info_needs_two_v_witness :
  trace (logging_info "Script started." (setup_logging 1 fresh_world).2).2 = [] ∧
  trace (logging_error "Script started." (setup_logging 1 fresh_world).2).2
    = [Emit ERROR "Script started."].
Proof.
  apply (info_needs_two_v 1 fresh_world "Script started."); [reflexivity | lia].
Defined.

(** ** The reshapers *)

Lemma axis_of_None (name : string) (ds : list string) :
  name ∉ ds → axis_of name ds = None.
Proof.
  intros Hn. unfold axis_of.
  destruct (list_find (λ d, d = name) ds) as [[i d]|] eqn:E; [|done].
  apply list_find_Some in E as (Hi & -> & _).
  exfalso. apply Hn. by eapply list_elem_of_lookup_2.
Qed.

Section reshapers.
Context {V : Type}.
Implicit Types (bd : DataArray V).

Lemma transpose_yxb_None bd :
  ¬ ("y" ∈ dims bd ∧ "x" ∈ dims bd ∧ "band" ∈ dims bd) ∨ 3 < length (shape (values bd)) →
  Xarray.transpose ["y"; "x"; "band"] bd = None.
Proof.
  intros Hbad. unfold Xarray.transpose.
  destruct (mapM (λ name, axis_of name (dims bd)) ["y"; "x"; "band"]) as [axes|] eqn:E;
    [|done]. simpl.
  pose proof (length_mapM _ _ _ E) as Hlen. simpl in Hlen.
  destruct Hbad as [Hnot | Hlong].
  - exfalso. apply Hnot.
    apply mapM_Some_1 in E.
    repeat (apply Forall2_cons_inv_l in E as (? & ? & ? & E & ->)).
    split_and!; apply dec_stable; intros Hn; apply axis_of_None in Hn; congruence.
  - unfold Numpy.transpose. rewrite decide_False; [done|].
    intros (Hl & _). lia.
Qed.

(** X3: how the Band-Stack Reshaper fails: with IndexError on an array of
    fewer than three axes; with ValueError on one of more than three
    axes, or one that lacks an axis named y, x or band; and with
    ValueError on a raster without bands, whose cells cannot be split
    into rows of length 0. *)
Theorem band_stack_failures bd :
  (length (shape (values bd)) < 3 → band_stack bd = inl IndexError) ∧
  (3 ≤ length (shape (values bd)) →
   ¬ ("y" ∈ dims bd ∧ "x" ∈ dims bd ∧ "band" ∈ dims bd) ∨ 3 < length (shape (values bd)) →
   band_stack bd = inl (ValueError "transpose")) ∧
  (∀ X Y, raster 0 X Y bd → band_stack bd = inl (ValueError "reshape")).
Proof.
  split_and!.
  - intros Hlen. unfold band_stack.
    destruct (shape (values bd)) as [|n0 [|n1 [|n2 ?]]]; simpl in *; try done. lia.
  - intros Hlen Hbad. unfold band_stack.
    rewrite (transpose_yxb_None bd Hbad).
    destruct (shape (values bd)) as [|n0 [|n1 [|n2 ?]]]; simpl in *; try lia. done.
  - intros X Y Hr.
    assert (∃ axes n1 n2 m1 m2, shape (values bd) = [0; n1; n2] ∧ wf (values bd) ∧
              mapM (λ name, axis_of name (dims bd)) ["y"; "x"; "band"] = Some axes ∧
              valid_axes 3 axes ∧
              (λ ax, default 0 ([0; n1; n2] !! ax)) <$> axes = [m1; m2; 0])
      as (axes & n1 & n2 & m1 & m2 & Hs & Hwf & Haxes & Hv & Hshp).
    { destruct Hr as [(Hd & Hs & Hwf) | (Hd & Hs & Hwf)].
      - exists [2; 1; 0], X, Y, Y, X. rewrite Hd. split_and!; try done.
        by apply (bool_decide_unpack _).
      - exists [1; 2; 0], Y, X, Y, X. rewrite Hd. split_and!; try done.
        by apply (bool_decide_unpack _). }
    destruct (transpose_Some axes (values bd)) as [t Ht]; [done|by rewrite Hs|].
    pose proof (transpose_shape _ _ _ Ht) as Hst. rewrite Hs, Hshp in Hst.
    unfold band_stack, Xarray.transpose. rewrite Hs, Haxes. simpl. by rewrite Ht.
Qed.

(** X4: the Result Reshaper only moves labels: the grid has the shape
    (n_y, n_x) and holds the labels it was given, each as often as it
    occurs in the sequence. *)
Theorem result_reshape_keeps_labels {L} (labels grid : ndarray L) n_x n_y :
  wf labels → result_reshape labels n_x n_y = inr grid →
  shape grid = [n_y; n_x] ∧ buffer grid ≡ₚ buffer labels.
Proof.
  intros Hwf. unfold result_reshape. rewrite reshape_grid.
  case_decide as Hn; [|done]. simpl.
  set (g := NdArray [n_x; n_y] (buffer labels)).
  assert (wf g) as Hwg by (unfold wf in *; simpl; lia).
  unfold T. change (reverse (seq 0 (length (shape g)))) with [1; 0].
  destruct (Numpy.transpose [1; 0] g) as [t|] eqn:Ht; [|done]. simpl.
  intros [= <-]. split.
  - by rewrite (transpose_shape _ _ _ Ht).
  - exact (transpose_Permutation _ _ _ Hwg Ht).
Qed.

(** X5: from raster to cluster grid, for a raster stored as (band, y, x) with
    [len_y] rows of [len_x] pixels: whatever labels the solver gives to
    the rows of the Pixel Matrix, the grid is accepted by the dataset
    under the names (x, y), and its cell (ix, iy) holds the label of the
    one row whose columns are the band values of the pixel at (ix, iy). *)
Theorem labels_land_on_their_pixels (xds : @Dataset V) (labels : ndarray Z) B len_y len_x :
  stored_as band_y_x B len_y len_x (band_data xds) → 0 < B →
  shape labels = [len_y * len_x] → wf labels →
  ∃ data grid,
    band_stack (band_data xds) = inr (B, len_y, len_x, data) ∧
    result_reshape labels len_y len_x = inr grid ∧
    shape grid = [len_x; len_y] ∧
    add_clusters xds grid =
      inr (MkDataset (band_data xds) (Some (MkDataArray ["x"; "y"] grid))) ∧
    ∀ ix iy, ix < len_x → iy < len_y →
      ∃ label, item grid [ix; iy] = Some label ∧
               item labels [row_of len_x ix iy] = Some label ∧
               ∀ b, b < B →
                 item data [row_of len_x ix iy; b] = cell (band_data xds) b ix iy.
Proof.
  intros Hr HB Hs Hwf.
  destruct (band_stack_band_y_x _ B len_y len_x Hr HB) as (data & Hbs & Hsd & Hwd & _ & Hit).
  destruct (result_reshape_spec labels len_y len_x Hwf) as [Hok _].
  destruct Hok as (grid & Hg & Hsg & Hwg & Hgi); [rewrite Hs; simpl; lia|].
  exists data, grid. split_and!; try done.
  - by eapply Reshapers.add_clusters_band_y_x.
  - intros ix iy Hx Hy.
    destruct (item_is_Some grid [ix; iy] Hwg) as [label Hl].
    { rewrite Hsg. by apply in_bounds_2. }
    exists label. split_and!; [done| |by intros b Hb; apply Hit].
    rewrite <- Hl, Hgi by done. unfold item, row_of. rewrite Hs.
    rewrite decide_True by (repeat constructor; nia). simpl. f_equal. lia.
Qed.
End reshapers.

Lemma result_reshape_keeps_labels_witness :
  ∃ grid, result_reshape (NdArray [6] [0; 0; 1; 1; 2; 2]%Z) 2 3 = inr grid ∧
    buffer grid ≡ₚ [0; 0; 1; 1; 2; 2]%Z.
Proof.
  eexists. split; [reflexivity|].
  eapply (result_reshape_keeps_labels (NdArray [6] [0; 0; 1; 1; 2; 2]%Z) _ 2 3);
    reflexivity.
Defined.

Lemma labels_land_on_their_pixels_witness :
  ∃ grid, result_reshape (NdArray [6] [0; 0; 1; 1; 2; 2]%Z) 3 2 = inr grid ∧
    add_clusters (MkDataset raster_byx_3x2 None) grid
      = inr (MkDataset raster_byx_3x2 (Some (MkDataArray ["x"; "y"] grid))).
Proof.
  destruct (labels_land_on_their_pixels (MkDataset raster_byx_3x2 None)
              (NdArray [6] [0; 0; 1; 1; 2; 2]%Z) 1 3 2)
    as (data & grid & _ & Hg & _ & Ha & _);
    [repeat split; reflexivity | lia | reflexivity | reflexivity |].
  by exists grid.
Defined.

(** ** The run as a whole *)

Section run.
Context {V RandomState : Type}.
Context (RandomState_seed : Z → RandomState).
Context (xr_open_dataset : string → exn + @Dataset V).
Context (k_means : RandomState → Z → ndarray V → (exn + ndarray Z) * RandomState).
Implicit Types w : @world RandomState.

Lemma extends_refl w : extends w w [] [].
Proof. exists []. by rewrite app_nil_r. Qed.

Lemma extends_trans w1 w2 w3 cs1 cs2 errs1 errs2 :
  extends w1 w2 cs1 errs1 → extends w2 w3 cs2 errs2 →
  extends w1 w3 (cs1 ++ cs2) (errs1 ++ errs2).
Proof.
  intros (n1 & Ht1 & <- & <- & Hg1) (n2 & Ht2 & <- & <- & Hg2).
  exists (n1 ++ n2). split_and!.
  - by rewrite Ht2, Ht1, app_assoc.
  - unfold calls. by rewrite filter_app.
  - unfold errors. by rewrite omap_app.
  - congruence.
Qed.

Lemma yields_bind_inl {A B} (m : M A) (k : A → M B) w e cs errs :
  yields m w (inl e) cs errs → yields (m ≫= k) w (inl e) cs errs.
Proof.
  intros (w' & Hm & He). exists w'. split; [|done].
  unfold mbind, M_bind, bind. by rewrite Hm.
Qed.

Lemma yields_bind_inr {A B} (m : M A) (k : A → M B) w x r cs1 cs2 errs1 errs2 :
  yields m w (inr x) cs1 errs1 →
  (∀ w', yields (k x) w' r cs2 errs2) →
  yields (m ≫= k) w r (cs1 ++ cs2) (errs1 ++ errs2).
Proof.
  intros (w' & Hm & He) Hk. destruct (Hk w') as (w'' & Hk' & He').
  exists w''. split; [|by eapply extends_trans].
  unfold mbind, M_bind, bind. by rewrite Hm.
Qed.

Lemma yields_lift {A} (r : exn + A) w : yields (lift r) w r [] [].
Proof. exists w. split; [done|apply extends_refl]. Qed.

Lemma yields_record (ev : event) w :
  is_call ev = true → yields (record ev) w (inr ()) [ev] [].
Proof.
  intros Hc. eexists. split; [done|]. exists [ev]. split_and!; try done.
  - unfold calls. rewrite filter_cons, decide_True by (by rewrite Hc). done.
  - by destruct ev.
Qed.

Lemma yields_info (msg : string) w : yields (logging_info msg) w (inr ()) [] [].
Proof.
  eexists. split; [done|]. unfold logging_info, logging_log. simpl.
  case_decide; [|by exists []; rewrite app_nil_r].
  by exists [Emit INFO msg].
Qed.

Lemma yields_setup_logging (c : Z) w :
  yields (setup_logging c) w
    (match level_table !! c with Some _ => inr () | None => inl (KeyError c) end) [] [].
Proof.
  unfold yields. rewrite setup_logging_spec.
  destruct (level_table !! c); [destruct (root_configured w)|];
    (eexists; split; [reflexivity|]); by exists []; rewrite app_nil_r.
Qed.

Lemma yields_load_data (path : string) w :
  yields (load_data xr_open_dataset path) w (xr_open_dataset path)
    [OpenDataset path "rasterio"]
    (match xr_open_dataset path with
     | inl e => if is_Exception e
                then ["Error loading data from " +:+ path +:+ ": " +:+ exn_msg e] else []
     | inr _ => []
     end).
Proof.
  unfold yields. rewrite load_data_spec. destruct (xr_open_dataset path) as [e|data].
  - destruct (is_Exception e); (eexists; split; [done|]); [by eexists [_; _]|by eexists [_]].
  - eexists. split; [done|]. simpl. case_decide; [by eexists [_; _]|by eexists [_]].
Qed.

Lemma yields_classify_data (flat_data : ndarray V) (K : Z) w :
  yields (classify_data RandomState_seed k_means flat_data (Some K)) w
    (k_means (RandomState_seed 9) K flat_data).1
    [FitPredict K 9]
    (match (k_means (RandomState_seed 9) K flat_data).1 with
     | inl e => if is_Exception e
                then ["Error during classification: " +:+ exn_msg e] else []
     | inr _ => []
     end).
Proof.
  unfold yields. rewrite classify_data_spec. simpl.
  destruct (k_means (RandomState_seed 9) K flat_data).1 as [e|labels].
  - destruct (is_Exception e); (eexists; split; [done|]); [by eexists [_; _]|by eexists [_]].
  - eexists. split; [done|]. simpl. case_decide; [by eexists [_; _]|by eexists [_]].
Qed.

Local Ltac ok_record :=
  eapply yields_bind_inr; [by apply yields_record | intros ?; cbv beta iota].
Local Tactic Notation "ok_by" uconstr(lem) :=
  eapply yields_bind_inr; [apply lem | intros ?; cbv beta iota].

(** Every run of [main] on a command line the parser accepts, told by
    the stage that ends it. *)
Lemma main_outcome (argv : list arg) (ns : Namespace) w :
  parse_args argv = inr ns →
  ∃ r cs errs,
    yields (main RandomState_seed xr_open_dataset k_means argv) w r cs errs ∧
    match level_table !! v ns with
    | None => r = inl (KeyError (v ns)) ∧ cs = [] ∧ errs = []
    | Some _ =>
      match xr_open_dataset (viirs_file ns) with
      | inl e =>
          r = inl e ∧ cs = take 1 (stages ns) ∧
          errs = if is_Exception e
                 then ["Error loading data from " +:+ viirs_file ns +:+ ": " +:+ exn_msg e]
                 else []
      | inr xds =>
        match band_stack (band_data xds) with
        | inl e => r = inl e ∧ cs = take 1 (stages ns) ∧ errs = []
        | inr (n_bands, n_x, n_y, data) =>
          match (k_means (RandomState_seed 9) (n_clusters ns) data).1 with
          | inl e =>
              r = inl e ∧ cs = take 2 (stages ns) ∧
              errs = if is_Exception e
                     then ["Error during classification: " +:+ exn_msg e] else []
          | inr labels =>
            match result_reshape labels n_x n_y with
            | inl e => r = inl e ∧ cs = take 2 (stages ns) ∧ errs = []
            | inr grid =>
              match add_clusters xds grid with
              | inl e => r = inl e ∧ cs = take 2 (stages ns) ∧ errs = []
              | inr _ => r = inr () ∧ cs = stages ns ∧ errs = []
              end
            end
          end
        end
      end
    end.
Proof.
  intros Hp. unfold Script.main. rewrite Hp.
  assert (∀ w, yields (setup_logging (v ns)) w
            (match level_table !! v ns with Some _ => inr () | None => inl (KeyError (v ns)) end)
            [] []) as Hsetup by apply yields_setup_logging.
  pose proof (yields_load_data (viirs_file ns)) as Hload.
  destruct (level_table !! v ns) as [lvl|].
  2: { eexists _, _, _.
       split; [ok_by yields_lift; eapply yields_bind_inl; apply Hsetup | done]. }
  destruct (xr_open_dataset (viirs_file ns)) as [e|xds].
  { eexists _, _, _.
    split; [ok_by yields_lift; ok_by Hsetup; ok_by yields_info;
            eapply yields_bind_inl; apply Hload | done]. }
  destruct (band_stack (band_data xds)) as [e|[[[n_bands n_x] n_y] data]] eqn:Hbs.
  { eexists _, _, _.
    split; [ok_by yields_lift; ok_by Hsetup; ok_by yields_info; ok_by Hload;
            ok_by yields_info; rewrite Hbs; eapply yields_bind_inl; apply yields_lift | done]. }
  pose proof (yields_classify_data data (n_clusters ns)) as Hfit.
  destruct (k_means (RandomState_seed 9) (n_clusters ns) data).1 as [e|labels].
  { eexists _, _, _.
    split; [ok_by yields_lift; ok_by Hsetup; ok_by yields_info; ok_by Hload;
            ok_by yields_info; rewrite Hbs; ok_by yields_lift; ok_by yields_info;
            eapply yields_bind_inl; apply Hfit | done]. }
  destruct (result_reshape labels n_x n_y) as [e|grid] eqn:Hgrid.
  { eexists _, _, _.
    split; [ok_by yields_lift; ok_by Hsetup; ok_by yields_info; ok_by Hload;
            ok_by yields_info; rewrite Hbs; ok_by yields_lift; ok_by yields_info; ok_by Hfit;
            ok_by yields_info; rewrite Hgrid;
            eapply yields_bind_inl; apply yields_lift | done]. }
  destruct (add_clusters xds grid) as [e|xds'] eqn:Hadd.
  { eexists _, _, _.
    split; [ok_by yields_lift; ok_by Hsetup; ok_by yields_info; ok_by Hload;
            ok_by yields_info; rewrite Hbs; ok_by yields_lift; ok_by yields_info; ok_by Hfit;
            ok_by yields_info; rewrite Hgrid; ok_by yields_lift; rewrite Hadd;
            eapply yields_bind_inl; apply yields_lift | done]. }
  eexists _, _, _.
  split; [ok_by yields_lift; ok_by Hsetup; ok_by yields_info; ok_by Hload;
          ok_by yields_info; rewrite Hbs; ok_by yields_lift; ok_by yields_info; ok_by Hfit;
          ok_by yields_info; rewrite Hgrid; ok_by yields_lift; rewrite Hadd;
          ok_by yields_lift; ok_by yields_info;
          ok_record; ok_record; ok_record; apply yields_info | done].
Qed.

(** The progress lines of a complete run, between the calls they
    announce. *)
Lemma main_complete_run (argv : list arg) (ns : Namespace) w (lvl : level)
    (xds : @Dataset V) (data : ndarray V) (labels grid : ndarray Z) (xds' : @Dataset V)
    n_bands n_x n_y :
  parse_args argv = inr ns →
  root_configured w = false → level_table !! v ns = Some lvl →
  xr_open_dataset (viirs_file ns) = inr xds →
  band_stack (band_data xds) = inr (n_bands, n_x, n_y, data) →
  (k_means (RandomState_seed 9) (n_clusters ns) data).1 = inr labels →
  result_reshape labels n_x n_y = inr grid →
  add_clusters xds grid = inr xds' →
  main RandomState_seed xr_open_dataset k_means argv w =
    (inr (), MkWorld true lvl (np_random w)
       (trace w ++
        if decide (levelno lvl ≤ levelno INFO)%Z then
          [Emit INFO "Script started.";
           OpenDataset (viirs_file ns) "rasterio";
           Emit INFO ("Data loaded successfully from " +:+ viirs_file ns);
           Emit INFO "Extract and reshape data along singleton dimension.";
           Emit INFO "Classifying data using KMeans.";
           FitPredict (n_clusters ns) 9;
           Emit INFO "Data classified successfully.";
           Emit INFO "Reshaping results to match original dimensions.";
           Emit INFO "Plotting results.";
           Figure 10 10; Imshow "tab10" false; Show;
           Emit INFO "Script finished."]
        else stages ns)).
Proof.
  intros Hp Hw Hlvl Hopen Hbs Hfit Hgrid Hadd.
  assert (∀ c (g : RandomState) tr (msg : string),
            logging_info msg (MkWorld c lvl g tr) =
              (inr (), MkWorld true lvl g
                         (if decide (levelno lvl ≤ levelno INFO)%Z
                          then tr ++ [Emit INFO msg] else tr))) as Hinfo by done.
  unfold Script.main.
  unfold mbind at 1, M_bind, bind, lift. rewrite Hp. cbv beta iota.
  unfold mbind at 1, M_bind, bind. rewrite setup_logging_spec, Hlvl, Hw. cbv beta iota.
  unfold mbind at 1, M_bind, bind. rewrite Hinfo. cbv beta iota.
  unfold mbind at 1, M_bind, bind. rewrite load_data_spec, Hopen.
  cbn [root_configured root_level np_random trace]. cbv beta iota.
  unfold mbind at 1, M_bind, bind. rewrite Hinfo. cbv beta iota.
  unfold mbind at 1, M_bind, bind, lift. rewrite Hbs. cbv beta iota.
  unfold mbind at 1, M_bind, bind. rewrite Hinfo. cbv beta iota.
  unfold mbind at 1, M_bind, bind. rewrite classify_data_spec.
  cbv zeta. change (default 5%Z (Some (n_clusters ns))) with (n_clusters ns).
  rewrite Hfit. cbn [root_configured root_level np_random trace]. cbv beta iota.
  unfold mbind at 1, M_bind, bind. rewrite Hinfo. cbv beta iota.
  unfold mbind at 1, M_bind, bind, lift. rewrite Hgrid. cbv beta iota.
  unfold mbind at 1, M_bind, bind, lift. rewrite Hadd. cbv beta iota.
  unfold mbind at 1, M_bind, bind. rewrite Hinfo. cbv beta iota.
  unfold mbind, M_bind, bind, record.
  cbn [root_configured root_level np_random trace]. cbv beta iota.
  rewrite Hinfo. unfold stages.
  case_decide; simpl; rewrite <- ?app_assoc; reflexivity.
Qed.

(** X6, a complete run: when the file holds a raster stored as (band, y, x)
    with at least one band and the solver returns one label per row of
    the Pixel Matrix, [main] ends normally, having made its five library
    calls in order and left numpy's global generator alone.  Of its own
    lines it hands the eight progress lines to the root logger, placed
    between the calls as below, when the level is INFO or DEBUG, and
    none when it is WARNING or ERROR.  The trace holds the script's own
    lines and calls only: a record that a library logs on its own
    account is not an event, so nothing is said about such records. *)
Theorem main_completes (argv : list arg) (ns : Namespace) w (lvl : level)
    (xds : @Dataset V) (data : ndarray V) (labels : ndarray Z) B len_y len_x :
  parse_args argv = inr ns →
  root_configured w = false → level_table !! v ns = Some lvl →
  xr_open_dataset (viirs_file ns) = inr xds →
  stored_as band_y_x B len_y len_x (band_data xds) → 0 < B →
  band_stack (band_data xds) = inr (B, len_y, len_x, data) →
  (k_means (RandomState_seed 9) (n_clusters ns) data).1 = inr labels →
  shape labels = [len_y * len_x] → wf labels →
  main RandomState_seed xr_open_dataset k_means argv w =
    (inr (), MkWorld true lvl (np_random w)
       (trace w ++
        if decide (levelno lvl ≤ levelno INFO)%Z then
          [Emit INFO "Script started.";
           OpenDataset (viirs_file ns) "rasterio";
           Emit INFO ("Data loaded successfully from " +:+ viirs_file ns);
           Emit INFO "Extract and reshape data along singleton dimension.";
           Emit INFO "Classifying data using KMeans.";
           FitPredict (n_clusters ns) 9;
           Emit INFO "Data classified successfully.";
           Emit INFO "Reshaping results to match original dimensions.";
           Emit INFO "Plotting results.";
           Figure 10 10; Imshow "tab10" false; Show;
           Emit INFO "Script finished."]
        else stages ns)).
Proof.
  intros Hp Hw Hlvl Hopen Hr HB Hbs Hfit Hs Hwf.
  destruct (result_reshape_spec labels len_y len_x Hwf) as [Hok _].
  destruct Hok as (grid & Hg & Hsg & _); [rewrite Hs; simpl; lia|].
  eapply main_complete_run; try done.
  by eapply Reshapers.add_clusters_band_y_x.
Qed.

(** X7: the calls of any run are the first few of the five stages, in order;
    the run ends normally exactly when all five were made, it then wrote
    no ERROR line, and a run that fails wrote at most one; numpy's
    global generator is never touched.  A command line the parser
    rejects ends the run before anything happens. *)
Theorem main_calls_in_order (argv : list arg) w :
  match parse_args argv with
  | inl e => main RandomState_seed xr_open_dataset k_means argv w = (inl e, w)
  | inr ns =>
      ∃ r cs errs,
        yields (main RandomState_seed xr_open_dataset k_means argv) w r cs errs ∧
        cs `prefix_of` stages ns ∧
        (r = inr () ↔ cs = stages ns) ∧
        (r = inr () → errs = []) ∧
        length errs ≤ 1
  end.
Proof.
  destruct (parse_args argv) as [e|ns] eqn:Hp.
  { unfold Script.main. unfold mbind, M_bind, bind, lift. by rewrite Hp. }
  destruct (main_outcome argv ns w Hp) as (r & cs & errs & Hy & Hcase).
  exists r, cs, errs. split; [done|].
  assert (∀ n, n < 5 → take n (stages ns) `prefix_of` stages ns ∧
                        take n (stages ns) ≠ stages ns) as Htake.
  { intros n Hn. split; [apply prefix_take|].
    intros Heq. apply (f_equal length) in Heq. rewrite length_take in Heq.
    simpl in Heq. lia. }
  assert (∀ (e : exn) n (l : list string), n < 5 → length l ≤ 1 →
            r = inl e ∧ cs = take n (stages ns) ∧ errs = l →
            cs `prefix_of` stages ns ∧ (r = inr () ↔ cs = stages ns) ∧
            (r = inr () → errs = []) ∧ length errs ≤ 1) as Hfail.
  { intros e n l Hn Hl (-> & -> & ->). destruct (Htake n Hn) as [Hpre Hne].
    split_and!; [done| |done|done]. split; [done|]. intros Heq. by apply Hne in Heq. }
  destruct (level_table !! v ns).
  2: { apply (Hfail (KeyError (v ns)) 0 []); [lia | simpl; lia | done]. }
  destruct (xr_open_dataset (viirs_file ns)) as [e|xds].
  { eapply (Hfail e 1); [lia | | done]. destruct (is_Exception e); simpl; lia. }
  destruct (band_stack (band_data xds)) as [e|[[[n_bands n_x] n_y] data]].
  { eapply (Hfail e 1 []); [lia | simpl; lia | done]. }
  destruct (k_means (RandomState_seed 9) (n_clusters ns) data).1 as [e|labels].
  { eapply (Hfail e 2); [lia | | done]. destruct (is_Exception e); simpl; lia. }
  destruct (result_reshape labels n_x n_y) as [e|grid].
  { eapply (Hfail e 2 []); [lia | simpl; lia | done]. }
  destruct (add_clusters xds grid) as [e|xds'].
  { eapply (Hfail e 2 []); [lia | simpl; lia | done]. }
  destruct Hcase as (-> & -> & ->). split_and!; try done. simpl. lia.
Qed.

(** X8: when the file cannot be opened, [main] ends with the opener's
    exception after the one attempt: the solver is not called and
    nothing is plotted.  The one ERROR line of [load_data] is written
    when the exception is an [Exception], as the error for a missing
    file is; an exception outside that class (Ctrl-C while the file is
    read) passes without a line. *)
Theorem main_stops_at_failed_load (argv : list arg) (ns : Namespace) w (e : exn) :
  parse_args argv = inr ns → (0 ≤ v ns ≤ 3)%Z →
  xr_open_dataset (viirs_file ns) = inl e →
  yields (main RandomState_seed xr_open_dataset k_means argv) w (inl e)
    [OpenDataset (viirs_file ns) "rasterio"]
    (if is_Exception e
     then ["Error loading data from " +:+ viirs_file ns +:+ ": " +:+ exn_msg e] else []).
Proof.
  intros Hp Hv Hopen.
  destruct (main_outcome argv ns w Hp) as (r & cs & errs & Hy & Hcase).
  rewrite level_table_lookup, Hopen in Hcase.
  repeat case_decide; try lia; by destruct Hcase as (-> & -> & ->).
Qed.

(** X9: when the solver raises, [main] ends with the solver's exception:
    the file was opened, the solver was called once, and nothing is
    plotted.  The one ERROR line of [classify_data] is written when the
    exception is an [Exception]; an exception outside that class (Ctrl-C
    during the fit) passes without a line. *)
Theorem main_stops_at_failed_clustering (argv : list arg) (ns : Namespace) w
    (xds : @Dataset V) (data : ndarray V) n_bands n_x n_y (e : exn) :
  parse_args argv = inr ns → (0 ≤ v ns ≤ 3)%Z →
  xr_open_dataset (viirs_file ns) = inr xds →
  band_stack (band_data xds) = inr (n_bands, n_x, n_y, data) →
  (k_means (RandomState_seed 9) (n_clusters ns) data).1 = inl e →
  yields (main RandomState_seed xr_open_dataset k_means argv) w (inl e)
    [OpenDataset (viirs_file ns) "rasterio"; FitPredict (n_clusters ns) 9]
    (if is_Exception e then ["Error during classification: " +:+ exn_msg e] else []).
Proof.
  intros Hp Hv Hopen Hbs Hfit.
  destruct (main_outcome argv ns w Hp) as (r & cs & errs & Hy & Hcase).
  rewrite level_table_lookup, Hopen, Hbs, Hfit in Hcase.
  repeat case_decide; try lia; by destruct Hcase as (-> & -> & ->).
Qed.

(** X11: when the array in the file cannot be stacked (too few or too many
    axes, a missing axis name, no bands), [main] ends with the exception
    of the failing array operation right after loading; these lines are
    outside the handlers of [load_data] and [classify_data], so, unlike a
    failed load or a failed clustering, the failure leaves no ERROR
    line; the solver is not called and nothing is plotted. *)
Theorem main_stops_at_failed_band_stack (argv : list arg) (ns : Namespace) w
    (xds : @Dataset V) (e : exn) :
  parse_args argv = inr ns → (0 ≤ v ns ≤ 3)%Z →
  xr_open_dataset (viirs_file ns) = inr xds →
  band_stack (band_data xds) = inl e →
  yields (main RandomState_seed xr_open_dataset k_means argv) w (inl e)
    [OpenDataset (viirs_file ns) "rasterio"] [].
Proof.
  intros Hp Hv Hopen Hbs.
  destruct (main_outcome argv ns w Hp) as (r & cs & errs & Hy & Hcase).
  rewrite level_table_lookup, Hopen, Hbs in Hcase.
  repeat case_decide; try lia; by destruct Hcase as (-> & -> & ->).
Qed.

Lemma add_clusters_band_x_y (xds : @Dataset V) (grid : ndarray Z) B X Y :
  stored_as band_x_y B X Y (band_data xds) → shape grid = [Y; X] → X ≠ Y →
  add_clusters xds grid = inl (ValueError "conflicting sizes").
Proof.
  intros (Hd & Hs & _) Hg Hne. unfold add_clusters, same_size, dim_size. simpl.
  rewrite Hd, Hs, Hg. simpl.
  rewrite bool_decide_eq_false_2; [done|]. intros [= ?]. by apply Hne.
Qed.

(** X10: on a raster stored as (band, x, y) with unequal extents the run
    gets as far as the solver and then fails: the transposed grid does
    not have the lengths of the dataset's x and y, adding it raises
    ValueError, outside any handler, so no ERROR line is written, and
    nothing is plotted. *)
Theorem main_refuses_band_x_y (argv : list arg) (ns : Namespace) w
    (xds : @Dataset V) (data : ndarray V) (labels : ndarray Z) B X Y :
  parse_args argv = inr ns → (0 ≤ v ns ≤ 3)%Z →
  xr_open_dataset (viirs_file ns) = inr xds →
  stored_as band_x_y B X Y (band_data xds) → 0 < B → X ≠ Y →
  band_stack (band_data xds) = inr (B, X, Y, data) →
  (k_means (RandomState_seed 9) (n_clusters ns) data).1 = inr labels →
  shape labels = [X * Y] → wf labels →
  yields (main RandomState_seed xr_open_dataset k_means argv) w
    (inl (ValueError "conflicting sizes"))
    [OpenDataset (viirs_file ns) "rasterio"; FitPredict (n_clusters ns) 9] [].
Proof.
  intros Hp Hv Hopen Hr HB Hne Hbs Hfit Hs Hwf.
  destruct (result_reshape_spec labels X Y Hwf) as [Hok _].
  destruct Hok as (grid & Hg & Hsg & _); [rewrite Hs; simpl; lia|].
  pose proof (add_clusters_band_x_y xds grid B X Y Hr Hsg Hne) as Hadd.
  destruct (main_outcome argv ns w Hp) as (r & cs & errs & Hy & Hcase).
  rewrite level_table_lookup, Hopen, Hbs, Hfit, Hg, Hadd in Hcase.
  repeat case_decide; try lia; by destruct Hcase as (-> & -> & ->).
Qed.
End run.

Lemma main_completes_witness :
  (main Z.to_nat one_file_open checking_k_means
        [Word "viirs.tif"; FlagV 2; OptNClusters 1] fresh_world).1 = inr ().
Proof.
  rewrite (main_completes Z.to_nat one_file_open checking_k_means
             [Word "viirs.tif"; FlagV 2; OptNClusters 1]
             (MkNamespace "viirs.tif" 1 2) fresh_world INFO
             (MkDataset raster_byx_3x2 None) pixels_byx_3x2
             (NdArray [6] (replicate 6 0%Z)) 1 3 2);
    first [reflexivity | lia | by repeat split].
Defined.

Lemma main_stops_at_failed_load_witness :
  yields (main Z.to_nat one_file_open checking_k_means [Word "missing.tif"]) fresh_world
    (inl (Exn "RasterioIOError" "missing.tif: No such file or directory"))
    [OpenDataset "missing.tif" "rasterio"]
    ["Error loading data from missing.tif: missing.tif: No such file or directory"].
Proof.
  apply (main_stops_at_failed_load Z.to_nat one_file_open checking_k_means
           [Word "missing.tif"] (MkNamespace "missing.tif" 5 0) fresh_world);
    first [reflexivity | simpl; lia].
Defined.

Lemma main_stops_at_failed_clustering_witness :
  yields (main Z.to_nat one_file_open checking_k_means [Word "viirs.tif"; OptNClusters 0])
    fresh_world
    (inl (Exn "InvalidParameterError"
            "The 'n_clusters' parameter of KMeans must be an int in the range [1, inf). Got 0 instead."))
    [OpenDataset "viirs.tif" "rasterio"; FitPredict 0 9]
    ["Error during classification: The 'n_clusters' parameter of KMeans must be an int in the range [1, inf). Got 0 instead."].
Proof.
  apply (main_stops_at_failed_clustering Z.to_nat one_file_open checking_k_means
           [Word "viirs.tif"; OptNClusters 0] (MkNamespace "viirs.tif" 0 0) fresh_world
           (MkDataset raster_byx_3x2 None) pixels_byx_3x2 1 3 2);
    first [reflexivity | simpl; lia].
Defined.

Lemma main_refuses_band_x_y_witness :
  yields (main Z.to_nat band_x_y_open checking_k_means [Word "viirs.tif"]) fresh_world
    (inl (ValueError "conflicting sizes"))
    [OpenDataset "viirs.tif" "rasterio"; FitPredict 5 9] [].
Proof.
  apply (main_refuses_band_x_y Z.to_nat band_x_y_open checking_k_means
           [Word "viirs.tif"] (MkNamespace "viirs.tif" 5 0) fresh_world
           (MkDataset raster_bxy_2x3 None) pixels_bxy_2x3
           (NdArray [6] (replicate 6 0%Z)) 1 2 3);
    first [reflexivity | simpl; lia | by repeat split].
Defined.

Lemma main_stops_at_failed_band_stack_witness :
  yields (main Z.to_nat flat_open checking_k_means [Word "viirs.tif"; FlagV 3]) fresh_world
    (inl IndexError) [OpenDataset "viirs.tif" "rasterio"] [].
Proof.
  apply (main_stops_at_failed_band_stack Z.to_nat flat_open checking_k_means
           [Word "viirs.tif"; FlagV 3] (MkNamespace "viirs.tif" 5 3) fresh_world
           (MkDataset (MkDataArray ["y"; "x"] (NdArray [3; 2] [0; 10; 1; 11; 2; 12]%Z)) None));
    first [reflexivity | simpl; lia].
Defined.

Lemma band_stack_failures_witness :
  band_stack (MkDataArray ["y"; "x"] (NdArray [3; 2] [0; 10; 1; 11; 2; 12]%Z))
    = inl IndexError ∧
  band_stack (MkDataArray ["band"; "row"; "col"] (NdArray [1; 3; 2] [0; 10; 1; 11; 2; 12]%Z))
    = inl (ValueError "transpose") ∧
  band_stack (MkDataArray band_y_x (NdArray [0; 3; 2] ([] : list Z)))
    = inl (ValueError "reshape").
Proof.
  split_and!.
  - apply band_stack_failures. simpl. lia.
  - apply band_stack_failures; [simpl; lia|]. left. intros (Hy & _).
    by repeat (apply elem_of_cons in Hy as [Hy|Hy]; [discriminate|]);
      apply elem_of_nil in Hy.
  - apply (proj2 (proj2 (band_stack_failures _)) 2 3). right. by repeat split.
Defined.
End Extras.
